(** * docarray: the video tensor coercion gate and the URL value type

    A shallow embedding of

    - [docarray/typing/tensor/video/video_tensor.py] (class [VideoTensor]),
    - [docarray/typing/url/any_url.py] (class [AnyUrl]),

    together with the properties the specification states about them.
    Python values are modelled by small inductive types, exceptions by an
    error type, and the collaborators that live outside the two files
    (pydantic, [os.path], [mimetypes], [urllib], the per-backend wrappers)
    by the fields of an explicit world or by section variables. *)

From Stdlib Require Import ZArith QArith Ascii Strings.Byte.
From stdpp Require Import base strings gmap list.

Open Scope string_scope.

(** ** Python exceptions and fallible results *)

Module Py.

(** The exception classes that the two modules raise or let through; all
    of them derive from [Exception].  [IsADirectoryError] carries the
    file name the failing call was given (its [filename] attribute), the
    other exceptions with a string carry their message. *)
Inductive exn : Type :=
| AttributeError (msg : string)
| TypeError (msg : string)
| ValueError (msg : string)
| NotImplementedError
| FileNotFoundError (msg : string)
| IsADirectoryError (filename : string)
| UrlSchemePermittedError (allowed : gset string)
| UrlUserInfoError
| UrlPortError
| URLError (reason : string)
| ExternalError (origin : string).

(** The outcome of a call: a returned value or a raised exception. *)
Inductive result (A : Type) : Type :=
| Ok (a : A)
| Raise (e : exn).
Arguments Ok {A} a.
Arguments Raise {A} e.

Definition bind {A B} (r : result A) (k : A -> result B) : result B :=
  match r with
  | Ok a => k a
  | Raise e => Raise e
  end.

Definition returns {A} (r : result A) : bool :=
  match r with Ok _ => true | Raise _ => false end.

Notation "'let?' x ':=' c 'in' k" := (bind c (fun x => k))
  (at level 10, x name, c at level 100, k at level 200).

(** [s.startswith(p)] and [s.endswith(p)] of [str]. *)
Definition startswith (s p : string) : bool := String.prefix p s.

Definition endswith (s p : string) : bool :=
  String.prefix (String.rev p) (String.rev s).

(** [s.split(sep)[0]] for a one-character separator: the text before the
    first occurrence of [sep], the whole string when there is none. *)
Fixpoint split_first (sep : ascii) (s : string) : string :=
  match s with
  | EmptyString => EmptyString
  | String c rest =>
      if Ascii.eqb c sep then EmptyString else String c (split_first sep rest)
  end.

(** [s.lower()] on the ASCII letters. *)
Definition lower_char (c : ascii) : ascii :=
  let n := nat_of_ascii c in
  if (65 <=? n)%nat && (n <=? 90)%nat then ascii_of_nat (n + 32) else c.

Fixpoint lower (s : string) : string :=
  match s with
  | EmptyString => EmptyString
  | String c rest => String (lower_char c) (lower rest)
  end.

(** The field descriptor and the model configuration that the schema
    engine passes to every validator; the validators only hand them on. *)
Record ModelField : Type := { field_name : string }.

Record BaseConfig : Type := { config_title : string }.

(** Truthiness of an optional string: [None] and [''] are falsy. *)
Definition truthy (o : option string) : bool :=
  match o with
  | None => false
  | Some s => negb (String.eqb s "")
  end.

End Py.

Import Py.

(** ** [video_tensor.py] *)

Module VideoTensor.

(** Modelled from the spec: the wrapper classes are declared in files
    that are not part of the sources at hand ([torch_tensor.py],
    [video_torch_tensor.py], [tensorflow_tensor.py],
    [video_tensorflow_tensor.py], [ndarray.py], [video_ndarray.py]).
    Each backend has a native array class, a generic wrapper and the
    video wrapper that specialises the generic one; the torch and numpy
    wrappers are themselves native arrays, the TensorFlow wrapper owns
    its native tensor instead.  [builtin] covers unrelated types such as
    [int], and [Subclass] any further class derived from a known one
    (another kind's wrapper, for instance). *)
Inductive pyclass : Type :=
| object_
| torch_Tensor
| TorchTensor
| VideoTorchTensor
| tf_Tensor
| TensorFlowTensor
| VideoTensorFlowTensor
| np_ndarray
| NdArray
| VideoNdArray
| builtin (name : string)
| Subclass (name : string) (base : pyclass).

#[global] Instance pyclass_eq_dec : EqDecision pyclass.
Proof. solve_decision. Defined.

(** The method resolution order of a class: itself, then its bases. *)
Fixpoint mro (c : pyclass) : list pyclass :=
  c :: match c with
       | object_ => []
       | torch_Tensor => [object_]
       | TorchTensor => [torch_Tensor; object_]
       | VideoTorchTensor => [TorchTensor; torch_Tensor; object_]
       | tf_Tensor => [object_]
       | TensorFlowTensor => [object_]
       | VideoTensorFlowTensor => [TensorFlowTensor; object_]
       | np_ndarray => [object_]
       | NdArray => [np_ndarray; object_]
       | VideoNdArray => [NdArray; np_ndarray; object_]
       | builtin _ => [object_]
       | Subclass _ base => mro base
       end.

(** The text of [type(value)] inside an f-string. *)
Definition qualname (c : pyclass) : string :=
  match c with
  | object_ => "object"
  | torch_Tensor => "torch.Tensor"
  | TorchTensor => "docarray.typing.tensor.torch_tensor.TorchTensor"
  | VideoTorchTensor =>
      "docarray.typing.tensor.video.video_torch_tensor.VideoTorchTensor"
  | tf_Tensor => "tensorflow.python.framework.tensor.Tensor"
  | TensorFlowTensor =>
      "docarray.typing.tensor.tensorflow_tensor.TensorFlowTensor"
  | VideoTensorFlowTensor =>
      "docarray.typing.tensor.video.video_tensorflow_tensor.VideoTensorFlowTensor"
  | np_ndarray => "numpy.ndarray"
  | NdArray => "docarray.typing.tensor.ndarray.NdArray"
  | VideoNdArray => "docarray.typing.tensor.video.video_ndarray.VideoNdArray"
  | builtin name => name
  | Subclass name _ => name
  end.

Definition class_repr (c : pyclass) : string :=
  "<class '" +:+ qualname c +:+ "'>".

(** A Python object: its identity, its class and the numbers it holds. *)
Record pyobj : Type := PyObj {
  ob_id : nat;
  ob_type : pyclass;
  ob_data : list Z
}.

Definition isinstance (value : pyobj) (c : pyclass) : bool :=
  bool_decide (c ∈ mro (ob_type value)).

Definition not_supported : exn :=
  AttributeError "This method should not be called on VideoTensor.".

(** The methods of the class; a body that is only [pass] returns [None],
    written [Ok tt]. *)
Definition __getitem__ (self item : pyobj) : result unit := Ok tt.

Definition __setitem__ (self index value : pyobj) : result unit := Ok tt.

Definition __iter__ (self : pyobj) : result unit := Ok tt.

Definition __len__ (self : pyobj) : result unit := Ok tt.

Definition _docarray_from_native (value : pyobj) : result unit :=
  Raise not_supported.

Definition get_comp_backend : result unit := Raise not_supported.

Definition to_protobuf (self : pyobj) : result unit := Raise not_supported.

Definition _docarray_to_json_compatible (self : pyobj) : result unit :=
  Raise not_supported.

Definition from_protobuf (pb_msg : pyobj) : result unit :=
  Raise not_supported.

(** The structural operations of a tensor, and their dispatch to the
    methods above. *)
Inductive structural_op : Type :=
| IndexedRead (item : pyobj)
| IndexedWrite (index value : pyobj)
| Iteration
| Length
| ProtobufExport
| ProtobufImport (pb_msg : pyobj)
| JsonExport.

Definition invoke (self : pyobj) (op : structural_op) : result unit :=
  match op with
  | IndexedRead item => __getitem__ self item
  | IndexedWrite index value => __setitem__ self index value
  | Iteration => __iter__ self
  | Length => __len__ self
  | ProtobufExport => to_protobuf self
  | ProtobufImport pb_msg => from_protobuf pb_msg
  | JsonExport => _docarray_to_json_compatible self
  end.

(** The operations whose method body is [pass]. *)
Definition has_empty_body (op : structural_op) : bool :=
  match op with
  | IndexedRead _ | IndexedWrite _ _ | Iteration | Length => true
  | ProtobufExport | ProtobufImport _ | JsonExport => false
  end.

Section Validate.

(** The availability flags computed when the module is imported. *)
Variable torch_available : bool.
Variable tf_available : bool.

(** The constructors of the concrete wrappers, declared elsewhere. *)
Variable VideoTorchTensor_from_native : pyobj -> result pyobj.
Variable VideoTensorFlowTensor_from_native : pyobj -> result pyobj.
Variable VideoNdArray_validate :
  pyobj -> ModelField -> BaseConfig -> result pyobj.

Definition unsupported_input (value : pyobj) : exn :=
  TypeError
    ("Expected one of [torch.Tensor, tensorflow.Tensor, numpy.ndarray] "
     +:+ "compatible type, got " +:+ class_repr (ob_type value)).

(** [VideoTensor.validate]: torch first, then TensorFlow, then numpy.
    [cast] returns its argument, and the [try ... except ... raise e]
    around the numpy validator hands its outcome on as it is. *)
Definition validate (value : pyobj) (field : ModelField)
    (config : BaseConfig) : result pyobj :=
  if torch_available && isinstance value TorchTensor then Ok value
  else if torch_available && isinstance value torch_Tensor then
    VideoTorchTensor_from_native value
  else if tf_available && isinstance value TensorFlowTensor then Ok value
  else if tf_available && isinstance value tf_Tensor then
    VideoTensorFlowTensor_from_native value
  else if isinstance value VideoNdArray then Ok value
  else if isinstance value np_ndarray then
    match VideoNdArray_validate value field config with
    | Ok v => Ok v
    | Raise e => Raise e
    end
  else Raise (unsupported_input value).

(** Which kind of [return] or [raise] statement of [validate] a value
    reaches: one of the three that return the argument itself, one of
    the three that build a wrapper from a native array, or the final
    [raise]. *)
Inductive branch : Type :=
| PassThrough
| FromNative
| Unsupported.

Definition branch_of (value : pyobj) : branch :=
  if torch_available && isinstance value TorchTensor then PassThrough
  else if torch_available && isinstance value torch_Tensor then FromNative
  else if tf_available && isinstance value TensorFlowTensor then PassThrough
  else if tf_available && isinstance value tf_Tensor then FromNative
  else if isinstance value VideoNdArray then PassThrough
  else if isinstance value np_ndarray then FromNative
  else Unsupported.

(** The video wrappers of the backends that are installed. *)
Definition is_video_wrapper (value : pyobj) : bool :=
  torch_available && isinstance value VideoTorchTensor
  || tf_available && isinstance value VideoTensorFlowTensor
  || isinstance value VideoNdArray.

End Validate.

End VideoTensor.

(** ** [any_url.py] *)

Module AnyUrl.

(** The raw value handed to the validator: a string (a URL value is one),
    or something else the schema engine may pass on. *)
Inductive pyvalue : Type :=
| PStr (s : string)
| PInt (n : Z)
| PBytes (b : list byte)
| PArray (data : list Z)
| PNone.

(** The parts the URL pattern of pydantic extracts ([Parts]). *)
Record Parts : Type := {
  scheme : option string;
  user : option string;
  password : option string;
  ipv4 : option string;
  ipv6 : option string;
  domain : option string;
  port : option string;
  path : option string;
  query : option string;
  fragment : option string
}.

(** A constructed URL value: a [str] with the attribute [scheme] the
    constructor was given. *)
Record url_value : Type := UrlValue {
  url_text : string;
  url_scheme : option string
}.

(** [cls(text, scheme=scheme)]: the string is stored as it is given. *)
Definition new_url (text : string) (scheme : option string) : url_value :=
  {| url_text := text; url_scheme := scheme |}.

(** [str(url)] *)
Definition str (u : url_value) : string := url_text u.

(** What a class of the URL family provides: the two class methods every
    subtype supplies, and the class attributes inherited from pydantic
    that [validate_parts] reads. *)
Record url_class : Type := {
  cls_repr : string;
  mime_type : result string;
  allowed_extensions : result (list string);
  allowed_schemes : option (list string);
  user_required : bool;
  _validate_port : option string -> result unit
}.

(** The class [AnyUrl] itself: both class methods raise, and the pydantic
    defaults are kept ([allowed_schemes = None], [user_required = False]). *)
Definition base_class (validate_port : option string -> result unit)
    : url_class :=
  {| cls_repr := "<class 'docarray.typing.url.any_url.AnyUrl'>";
     mime_type := Raise NotImplementedError;
     allowed_extensions := Raise NotImplementedError;
     allowed_schemes := None;
     user_required := false;
     _validate_port := validate_port |}.

(** The same class with another [allowed_extensions]. *)
Definition with_extensions (cls : url_class) (exts : result (list string))
    : url_class :=
  {| cls_repr := cls_repr cls;
     mime_type := mime_type cls;
     allowed_extensions := exts;
     allowed_schemes := allowed_schemes cls;
     user_required := user_required cls;
     _validate_port := _validate_port cls |}.

(** Truthiness of [cls.allowed_schemes]: [None] and the empty collection
    are falsy. *)
Definition schemes_given (c : url_class) : list string :=
  match allowed_schemes c with
  | None => []
  | Some l => l
  end.

(** The scheme test that opens [validate_parts]: a missing scheme passes,
    a present one is looked up, in lower case, when schemes are given. *)
Definition check_scheme (cls : url_class) (parts : Parts) : result unit :=
  match scheme parts with
  | None => Ok tt
  | Some sch =>
      if negb (bool_decide (schemes_given cls = []))
         && negb (bool_decide (lower sch ∈ schemes_given cls))
      then Raise (UrlSchemePermittedError (list_to_set (schemes_given cls)))
      else Ok tt
  end.

(** The port and user tests that follow it. *)
Definition check_port_and_user (cls : url_class) (parts : Parts)
    (validate_port : bool) : result Parts :=
  let? _ :=
    if validate_port then _validate_port cls (port parts) else Ok tt in
  if user_required cls && bool_decide (user parts = None)
  then Raise UrlUserInfoError
  else Ok parts.

(** [AnyUrl.validate_parts] *)
Definition validate_parts (cls : url_class) (parts : Parts)
    (validate_port : bool) : result Parts :=
  let? _ := check_scheme cls parts in
  check_port_and_user cls parts validate_port.

(** *** The world outside the module *)

Record request : Type := Request {
  req_url : string;
  req_headers : list (string * string)
}.

Record response : Type := Response {
  content_maintype : string;
  body : list byte
}.

Inductive node : Type :=
| File (content : list byte)
| Directory.

(** The collaborators: [os.path], [mimetypes], [urllib] and the validator
    of pydantic's [AnyUrl], which calls back the [validate_parts] of the
    class it is run for. *)
Record World : Type := {
  isabs : string -> bool;
  abspath : string -> string;
  guess_type : string -> option string * option string;
  network : request -> option Q -> result response;
  urlparse_scheme : string -> string;
  filesystem : gmap string node;
  pydantic_validate :
    url_class -> (Parts -> result Parts) -> pyvalue -> ModelField ->
    BaseConfig -> result url_value
}.

(** What the calls into the world leave behind, in order. *)
Inductive event : Type :=
| EvUrlopen (req : request) (timeout : option Q)
| EvExists (path : string)
| EvOpen (path : string).

(** Computations that may raise and that append to the log of events. *)
Definition IO (A : Type) : Type := list event -> result A * list event.

Definition ret {A} (a : A) : IO A := fun log => (Ok a, log).

Definition raise {A} (e : exn) : IO A := fun log => (Raise e, log).

Definition lift {A} (r : result A) : IO A := fun log => (r, log).

Definition io_bind {A B} (c : IO A) (k : A -> IO B) : IO B :=
  fun log =>
    match c log with
    | (Ok a, log') => k a log'
    | (Raise e, log') => (Raise e, log')
    end.

(** [try: c  except Exception: ...]: the outcome of [c] as a value. *)
Definition attempt {A} (c : IO A) : IO (result A) :=
  fun log => let '(r, log') := c log in (Ok r, log').

Notation "'let*' x ':=' c 'in' k" := (io_bind c (fun x => k))
  (at level 10, x name, c at level 100, k at level 200).

Section InWorld.

Variable w : World.

(** [urllib.request.urlopen(req, timeout=...)] *)
Definition urlopen (req : request) (timeout : option Q) : IO response :=
  fun log => (network w req timeout, (log ++ [EvUrlopen req timeout])%list).

(** [os.path.exists(path)] *)
Definition path_exists (path : string) : IO bool :=
  fun log => (Ok (bool_decide (is_Some (filesystem w !! path))),
              (log ++ [EvExists path])%list).

(** [open(path, 'rb')] followed by [fp.read()], on a POSIX system: a
    directory cannot be opened for reading. *)
Definition read_binary (path : string) : IO (list byte) :=
  fun log =>
    (match filesystem w !! path with
     | Some (File content) => Ok content
     | Some Directory => Raise (IsADirectoryError path)
     | None =>
         Raise (FileNotFoundError
                  ("[Errno 2] No such file or directory: '" +:+ path +:+ "'"))
     end, (log ++ [EvOpen path])%list).

(** Lines 59-69 of [validate]: the relative-path flag and the value that
    is handed to the URL grammar check. *)
Definition normalize_path (value : pyvalue) : bool * pyvalue :=
  match value with
  | PStr s =>
      if negb (startswith s "http") && negb (isabs w s)
      then (true, PStr (abspath w s))
      else (false, value)
  | _ => (false, value)
  end.

(** [value.split("?")] works on a [str] only: the string it is called on,
    or the exception the call raises on another value. *)
Definition splittable (value : pyvalue) : result string :=
  match value with
  | PStr s => Ok s
  | PInt _ => Raise (AttributeError "'int' object has no attribute 'split'")
  | PBytes _ => Raise (TypeError "a bytes-like object is required, not 'str'")
  | PArray _ =>
      Raise (AttributeError "'numpy.ndarray' object has no attribute 'split'")
  | PNone => Raise (AttributeError "'NoneType' object has no attribute 'split'")
  end.

(** Lines 74-82: extension lookup, then the network probe if and only if
    the lookup gave nothing; an exception of the probe is dropped. *)
Definition detect_mimetype (value : string) : IO (option string) :=
  let '(mimetype, encoding) := guess_type w (split_first "?" value) in
  if negb (truthy mimetype) then
    let* r := attempt (urlopen {| req_url := value; req_headers := [] |} None) in
    match r with
    | Raise _ => ret mimetype
    | Ok r => ret (Some (content_maintype r))
    end
  else ret mimetype.

Definition extension_allowed (value : string) (exts : list string) : bool :=
  existsb
    (fun ext => endswith value ext || endswith (split_first "?" value) ext)
    exts.

Definition invalid_format (cls : url_class) (value : string) : exn :=
  ValueError
    ("file " +:+ value +:+ " is not a valid file format for class "
     +:+ cls_repr cls).

Definition wrong_format (value mime : string) : exn :=
  ValueError ("file " +:+ value +:+ " is not a " +:+ mime +:+ " file format").

(** Lines 84-98: the extension whitelist when no mime type was found, the
    prefix test on the mime type otherwise. *)
Definition verify_format (cls : url_class) (value : string)
    (mimetype : option string) : result unit :=
  let? skip_check :=
    if negb (truthy mimetype) then
      let? exts := allowed_extensions cls in
      if negb (extension_allowed value exts)
      then Raise (invalid_format cls value)
      else Ok true
    else Ok false in
  if negb skip_check then
    let? required := mime_type cls in
    if negb (startswith (default "" mimetype) required)
    then Raise (wrong_format value required)
    else Ok tt
  else Ok tt.

(** [super().validate(abs_path, field, config)]: the validator of pydantic,
    run for [cls], so that the grammar check it makes is the
    [validate_parts] above (with its default [validate_port=True]). *)
Definition super_validate (cls : url_class) (abs_path : pyvalue)
    (field : ModelField) (config : BaseConfig) : result url_value :=
  pydantic_validate w cls (fun parts => validate_parts cls parts true)
    abs_path field config.

(** [AnyUrl.validate] *)
Definition validate (cls : url_class) (value : pyvalue) (field : ModelField)
    (config : BaseConfig) : IO url_value :=
  let '(input_is_relative_path, abs_path) := normalize_path value in
  let* url := lift (super_validate cls abs_path field config) in
  let* s := lift (splittable value) in
  let* mimetype := detect_mimetype s in
  let* _ := lift (verify_format cls s mimetype) in
  if input_is_relative_path
  then ret (new_url s None)
  else ret (new_url (str url) None).

Definition network_schemes : list string := ["http"; "https"; "data"].

Definition user_agent : list (string * string) :=
  [("User-Agent", "Mozilla/5.0")].

(** [AnyUrl.load_bytes] *)
Definition load_bytes (self : url_value) (timeout : option Q)
    : IO (list byte) :=
  if bool_decide (urlparse_scheme w (str self) ∈ network_schemes) then
    let* fp :=
      urlopen {| req_url := str self; req_headers := user_agent |} timeout in
    ret (body fp)
  else
    let* found := path_exists (str self) in
    if found then read_binary (str self)
    else raise (FileNotFoundError
                  ("`" +:+ str self +:+ "` is not a URL or a valid local path")).

End InWorld.

(** *** [build] *)

(** [url[n:]] *)
Fixpoint drop_chars (n : nat) (s : string) : string :=
  match n, s with
  | O, _ => s
  | S _, EmptyString => EmptyString
  | S n', String _ rest => drop_chars n' rest
  end.

(** Whether a character occurs in a string. *)
Fixpoint has_char (c : ascii) (s : string) : bool :=
  match s with
  | EmptyString => false
  | String c' rest => Ascii.eqb c' c || has_char c rest
  end.

(** The keyword arguments of [build] besides [scheme]. *)
Record build_kwargs : Type := {
  kw_user : option string;
  kw_password : option string;
  kw_host : string;
  kw_port : option string;
  kw_path : option string;
  kw_query : option string;
  kw_fragment : option string
}.

Section Build.

(** [super().build(scheme=..., ...)] of pydantic. *)
Variable pydantic_build : string -> build_kwargs -> string.

(** [AnyUrl.build] *)
Definition build (scheme : option string) (kwargs : build_kwargs) : string :=
  let scheme_ := match scheme with Some sch => sch | None => "" end in
  let url := pydantic_build scheme_ kwargs in
  if bool_decide (scheme = None) && startswith url "://"
  then drop_chars 3 url
  else url.

End Build.

(** *** The extension test in the words of the specification

    "A value whose literal suffix (with or without the stripped query
    string) matches an allowed extension", said without the functions of
    the embedding. *)

(** [s] ends in [ext]. *)
Definition ends_with (s ext : string) : Prop :=
  exists pre, s = pre +:+ ext.

(** [m] starts with [required]. *)
Definition starts_with (m required : string) : Prop :=
  exists rest, m = required +:+ rest.

(** [stem] is [s] without its query string: it has no [?], and [s] is
    [stem] itself or [stem], a [?] and a query. *)
Definition stripped_of_query (s stem : string) : Prop :=
  (forall pre post, stem <> pre +:+ "?" +:+ post)
  /\ (s = stem \/ exists query, s = stem +:+ "?" +:+ query).

(** Some allowed extension is a suffix of [s] or of [s] without its query
    string. *)
Definition suffix_matches (s : string) (exts : list string) : Prop :=
  exists ext,
    ext ∈ exts
    /\ (ends_with s ext
        \/ exists stem, stripped_of_query s stem /\ ends_with stem ext).

End AnyUrl.

(** ** Concrete values, classes and a concrete world *)

Module Examples.

Import VideoTensor AnyUrl.

Definition a_field : ModelField := {| field_name := "video" |}.

Definition a_config : BaseConfig := {| config_title := "MyVideoDoc" |}.

(** The integer [5], a generic torch wrapper and a video torch wrapper. *)
Definition int_five : pyobj :=
  {| ob_id := 1; ob_type := builtin "int"; ob_data := [5%Z] |}.

Definition generic_torch : pyobj :=
  {| ob_id := 2; ob_type := TorchTensor; ob_data := [0%Z; 0%Z] |}.

Definition video_torch : pyobj :=
  {| ob_id := 3; ob_type := VideoTorchTensor; ob_data := [0%Z; 0%Z] |}.

(** Wrapper constructors that give the new wrapper a fresh identity. *)
Definition wrap_as (c : pyclass) (value : pyobj) : result pyobj :=
  Ok {| ob_id := 100 + ob_id value; ob_type := c; ob_data := ob_data value |}.

Definition validate_with (torch tf : bool) (value : pyobj) : result pyobj :=
  VideoTensor.validate torch tf (wrap_as VideoTorchTensor)
    (wrap_as VideoTensorFlowTensor) (fun v _ _ => wrap_as VideoNdArray v)
    value a_field a_config.

(** The value of a string of decimal digits. *)
Fixpoint decimal_from (acc : N) (s : string) : N :=
  match s with
  | EmptyString => acc
  | String c rest => decimal_from (10 * acc + (N_of_ascii c - 48))%N rest
  end.

Definition decimal (s : string) : N := decimal_from 0%N s.

(** The port test of pydantic: a port above 65535 is refused. *)
Definition port_in_range (port : option string) : result unit :=
  match port with
  | None => Ok tt
  | Some p => if (65535 <? decimal p)%N then Raise UrlPortError else Ok tt
  end.

Definition ImageUrl : url_class :=
  {| cls_repr := "<class 'docarray.typing.url.image_url.ImageUrl'>";
     mime_type := Ok "image";
     allowed_extensions := Ok [".jpg"; ".png"];
     allowed_schemes := None;
     user_required := false;
     _validate_port := port_in_range |}.

Definition VideoUrl : url_class :=
  {| cls_repr := "<class 'docarray.typing.url.video_url.VideoUrl'>";
     mime_type := Ok "video";
     allowed_extensions := Ok [".mkv"; ".png"];
     allowed_schemes := None;
     user_required := false;
     _validate_port := port_in_range |}.

(** A subtype that restricts the schemes the way pydantic's [HttpUrl]
    does. *)
Definition WebImageUrl : url_class :=
  {| cls_repr := "<class 'WebImageUrl'>";
     mime_type := Ok "image";
     allowed_extensions := Ok [".jpg"; ".png"];
     allowed_schemes := Some ["http"; "https"];
     user_required := false;
     _validate_port := port_in_range |}.

Definition scheme_of (s : string) : string :=
  if startswith s "http://" then "http"
  else if startswith s "https://" then "https"
  else if startswith s "ftp://" then "ftp"
  else if startswith s "data:" then "data"
  else "".

Definition parts_of (s : string) : Parts :=
  {| scheme := if String.eqb (scheme_of s) "" then None else Some (scheme_of s);
     user := None; password := None; ipv4 := None; ipv6 := None;
     domain := None; port := None; path := Some s; query := None;
     fragment := None |}.

Definition only_scheme (sch : option string) : Parts :=
  {| scheme := sch;
     user := None; password := None; ipv4 := None; ipv6 := None;
     domain := None; port := None; path := None; query := None;
     fragment := None |}.

(** Extension lookup for a handful of file types. *)
Definition guess_by_suffix (name : string) : option string * option string :=
  if endswith name ".png" then (Some "image/png", None)
  else if endswith name ".jpg" then (Some "image/jpeg", None)
  else if endswith name ".mp4" then (Some "video/mp4", None)
  else if endswith name ".txt" then (Some "text/plain", None)
  else (None, None).

(** A POSIX machine with working directory [/home/user], two entries on
    its disk and one reachable server. *)
Definition posix : World :=
  {| isabs := fun s => startswith s "/";
     abspath := fun s => if startswith s "/" then s else "/home/user/" +:+ s;
     guess_type := guess_by_suffix;
     network := fun req _ =>
       if String.eqb (req_url req) "http://example.com/clip"
       then Ok {| content_maintype := "video"; body := [x01; x02; x03] |}
       else Raise (URLError "unreachable");
     urlparse_scheme := scheme_of;
     filesystem := {[ "/data/clip.bin" := File [x00; xff]; "/data" := Directory ]};
     pydantic_validate := fun _ check value _ _ =>
       match value with
       | PStr s => let? parts := check (parts_of s) in
                   Ok (new_url s (scheme parts))
       | _ => Raise (ExternalError "pydantic.errors.StrError")
       end |}.

(** The URL text pydantic assembles for a class without hidden parts:
    scheme, [://], user info, host, port, path, query and fragment. *)
Definition optional (prefix : string) (part : option string) : string :=
  match part with
  | Some s => if String.eqb s "" then "" else prefix +:+ s
  | None => ""
  end.

Definition after_scheme (kw : build_kwargs) : string :=
  optional "" (kw_user kw) +:+ optional ":" (kw_password kw)
  +:+ (if truthy (kw_user kw) || truthy (kw_password kw) then "@" else "")
  +:+ kw_host kw
  +:+ optional ":" (kw_port kw) +:+ optional "" (kw_path kw)
  +:+ optional "?" (kw_query kw) +:+ optional "#" (kw_fragment kw).

Definition assemble (scheme : string) (kw : build_kwargs) : string :=
  scheme +:+ "://" +:+ after_scheme kw.

Definition local_file : build_kwargs :=
  {| kw_user := None; kw_password := None; kw_host := "";
     kw_port := None; kw_path := Some "/data/clip.mp4"; kw_query := None;
     kw_fragment := None |}.

Definition native_torch : pyobj :=
  {| ob_id := 4; ob_type := torch_Tensor; ob_data := [1%Z; 2%Z] |}.

Definition native_ndarray : pyobj :=
  {| ob_id := 5; ob_type := np_ndarray; ob_data := [1%Z; 2%Z] |}.

Definition generic_ndarray : pyobj :=
  {| ob_id := 6; ob_type := NdArray; ob_data := [1%Z; 2%Z] |}.

(** A class that admits [https] only. *)
Definition SecureImageUrl : url_class :=
  {| cls_repr := "<class 'SecureImageUrl'>";
     mime_type := Ok "image";
     allowed_extensions := Ok [".png"];
     allowed_schemes := Some ["https"];
     user_required := false;
     _validate_port := port_in_range |}.

(** A class that insists on user info. *)
Definition AuthUrl : url_class :=
  {| cls_repr := "<class 'AuthUrl'>";
     mime_type := Ok "image";
     allowed_extensions := Ok [".png"];
     allowed_schemes := None;
     user_required := true;
     _validate_port := port_in_range |}.

End Examples.


(** Membership in a method resolution order, by cases on the class. *)
Ltac by_mro c IH :=
  induction c as [| | | | | | | | | | ? | ? ? IH];
  cbn [VideoTensor.mro]; rewrite ?elem_of_cons, ?elem_of_nil;
  (intuition congruence).

(** * Properties of [VideoTensor] *)

(** ** The class hierarchy *)

Lemma mro_video_torch (c : VideoTensor.pyclass) :
  VideoTensor.VideoTorchTensor ∈ VideoTensor.mro c ->
  VideoTensor.TorchTensor ∈ VideoTensor.mro c.
Proof.
  by_mro c IH.
Qed.

Lemma mro_ndarray (c : VideoTensor.pyclass) :
  VideoTensor.VideoNdArray ∈ VideoTensor.mro c ->
  VideoTensor.np_ndarray ∈ VideoTensor.mro c.
Proof.
  by_mro c IH.
Qed.

Lemma mro_video_tf (c : VideoTensor.pyclass) :
  VideoTensor.VideoTensorFlowTensor ∈ VideoTensor.mro c ->
  VideoTensor.TensorFlowTensor ∈ VideoTensor.mro c
  /\ VideoTensor.torch_Tensor ∉ VideoTensor.mro c.
Proof.
  by_mro c IH.
Qed.

Lemma mro_video_ndarray_apart (c : VideoTensor.pyclass) :
  VideoTensor.VideoNdArray ∈ VideoTensor.mro c ->
  (VideoTensor.torch_Tensor ∉ VideoTensor.mro c)
  /\ (VideoTensor.tf_Tensor ∉ VideoTensor.mro c).
Proof.
  by_mro c IH.
Qed.

(** ** Pass-through *)

(** A value that reaches a pass-through statement is returned as it is:
    the very same object, not a new wrapper. *)
Lemma pass_through_identity torch tf from_torch from_tf nd_validate
    value field config :
  VideoTensor.branch_of torch tf value = VideoTensor.PassThrough ->
  VideoTensor.validate torch tf from_torch from_tf nd_validate
    value field config = Ok value.
Proof.
  unfold VideoTensor.branch_of, VideoTensor.validate.
  repeat case_match; congruence.
Qed.

(** Every video wrapper of an installed backend takes a pass-through
    statement. *)
Lemma video_wrapper_passes_through torch tf value :
  VideoTensor.is_video_wrapper torch tf value = true ->
  VideoTensor.branch_of torch tf value = VideoTensor.PassThrough.
Proof.
  unfold VideoTensor.is_video_wrapper, VideoTensor.branch_of,
    VideoTensor.isinstance.
  intros H.
  destruct torch, tf; cbn in H |- *; repeat case_bool_decide;
    try reflexivity; try discriminate;
    repeat match goal with
    | Hin : VideoTensor.VideoTorchTensor ∈ _ |- _ =>
        apply mro_video_torch in Hin
    | Hin : VideoTensor.VideoTensorFlowTensor ∈ _ |- _ =>
        apply mro_video_tf in Hin as [? ?]
    | Hin : VideoTensor.VideoNdArray ∈ _ |- _ =>
        apply mro_video_ndarray_apart in Hin as [? ?]
    end; tauto.
Qed.

(** The first half of C5: a video wrapper of an installed backend comes
    back from [validate] unchanged. *)
Lemma video_wrapper_identity torch tf from_torch from_tf nd_validate
    value field config :
  VideoTensor.is_video_wrapper torch tf value = true ->
  VideoTensor.validate torch tf from_torch from_tf nd_validate
    value field config = Ok value.
Proof.
  intros H. apply pass_through_identity.
  apply video_wrapper_passes_through. exact H.
Qed.

(** ** The claims *)

(** C1, as stated, fails: indexed read on the abstract kind returns
    [None] instead of failing (and so do indexed write, iteration and
    length), so not every structural operation raises. *)
Lemma abstract_kind_indexed_read_returns :
  VideoTensor.invoke Examples.video_torch
    (VideoTensor.IndexedRead Examples.int_five) = Ok tt
  /\ ~ (forall self op,
          VideoTensor.invoke self op = Raise VideoTensor.not_supported).
Proof.
  split; [reflexivity |].
  intros H.
  specialize (H Examples.video_torch (VideoTensor.IndexedRead Examples.int_five)).
  discriminate H.
Qed.

(** C1, amended: protobuf export, protobuf import and JSON export on the
    abstract kind raise the "should not be called on VideoTensor"
    attribute error; indexed read, indexed write, iteration and length
    have an empty body and return [None]. *)
Theorem abstract_kind_operations (self : VideoTensor.pyobj)
    (op : VideoTensor.structural_op) :
  VideoTensor.invoke self op =
    if VideoTensor.has_empty_body op then Ok tt
    else Raise (AttributeError
                  "This method should not be called on VideoTensor.").
Proof. destruct op; reflexivity. Qed.

(** C5, at the failing input: with torch installed, a generic torch
    wrapper that is not a video wrapper is returned by [validate] as it
    is, through the pass-through statement, so the result of the gate is
    not a video wrapper. *)
Theorem generic_torch_wrapper_passes_through :
  Examples.validate_with true false Examples.generic_torch
    = Ok Examples.generic_torch
  /\ VideoTensor.branch_of true false Examples.generic_torch
     = VideoTensor.PassThrough
  /\ VideoTensor.is_video_wrapper true false Examples.generic_torch = false.
Proof. repeat split; vm_compute; reflexivity. Qed.

(** C6: a value that is no instance of a backend wrapper and no native
    array of an installed backend is refused with the type error that
    names the three native families and the class of the value. *)
Theorem unsupported_value_rejected torch tf from_torch from_tf nd_validate
    (value : VideoTensor.pyobj) field config :
  VideoTensor.isinstance value VideoTensor.TorchTensor = false ->
  VideoTensor.isinstance value VideoTensor.TensorFlowTensor = false ->
  VideoTensor.isinstance value VideoTensor.NdArray = false ->
  (torch = true ->
   VideoTensor.isinstance value VideoTensor.torch_Tensor = false) ->
  (tf = true -> VideoTensor.isinstance value VideoTensor.tf_Tensor = false) ->
  VideoTensor.isinstance value VideoTensor.np_ndarray = false ->
  VideoTensor.validate torch tf from_torch from_tf nd_validate
    value field config
  = Raise (TypeError
      ("Expected one of [torch.Tensor, tensorflow.Tensor, numpy.ndarray] compatible type, got "
       +:+ VideoTensor.class_repr (VideoTensor.ob_type value))).
Proof.
  intros Htw Htfw _ Ht Htf Hnp.
  assert (Hv : VideoTensor.isinstance value VideoTensor.VideoNdArray = false).
  { unfold VideoTensor.isinstance in *.
    apply bool_decide_eq_false. intros H. apply mro_ndarray in H.
    apply bool_decide_eq_false in Hnp. exact (Hnp H). }
  unfold VideoTensor.validate.
  rewrite Htw, Htfw, Hv, Hnp, !andb_false_r.
  destruct torch; [rewrite Ht by reflexivity |];
    (destruct tf; [rewrite Htf by reflexivity |]); reflexivity.
Qed.

Lemma unsupported_value_rejected_witness :
  Examples.validate_with true true Examples.int_five
  = Raise (TypeError
      "Expected one of [torch.Tensor, tensorflow.Tensor, numpy.ndarray] compatible type, got <class 'int'>").
Proof.
  unfold Examples.validate_with.
  rewrite (unsupported_value_rejected true true _ _ _ Examples.int_five);
    [reflexivity | reflexivity ..].
Defined.

(** * Properties of [AnyUrl] *)

(** ** How [validate] runs *)

(** The final value of [validate]: the original string for a relative
    input, the text of the validated URL otherwise. *)
Lemma normalize_path_cases (w : AnyUrl.World) (s : string) :
  (startswith s "http" = false /\ AnyUrl.isabs w s = false
   /\ AnyUrl.normalize_path w (AnyUrl.PStr s)
      = (true, AnyUrl.PStr (AnyUrl.abspath w s)))
  \/ ((startswith s "http" = true \/ AnyUrl.isabs w s = true)
      /\ AnyUrl.normalize_path w (AnyUrl.PStr s) = (false, AnyUrl.PStr s)).
Proof.
  unfold AnyUrl.normalize_path.
  destruct (startswith s "http"), (AnyUrl.isabs w s); cbn; auto.
Qed.

(** The mime type detection never raises: an exception of the probe is
    caught. *)
Lemma detect_mimetype_returns (w : AnyUrl.World) (s : string)
    (log : list AnyUrl.event) :
  exists mt log', AnyUrl.detect_mimetype w s log = (Ok mt, log').
Proof.
  unfold AnyUrl.detect_mimetype.
  destruct (AnyUrl.guess_type w _) as [mimetype encoding].
  destruct (truthy mimetype); cbn.
  - eexists _, _. reflexivity.
  - unfold AnyUrl.io_bind, AnyUrl.attempt, AnyUrl.urlopen, AnyUrl.ret.
    destruct (AnyUrl.network w _ _); eexists _, _; reflexivity.
Qed.

(** [validate] on a string whose grammar check passed, step by step. *)
Lemma validate_string_steps (w : AnyUrl.World) cls s field config log
    url mt log' :
  AnyUrl.super_validate w cls (AnyUrl.normalize_path w (AnyUrl.PStr s)).2
    field config = Ok url ->
  AnyUrl.detect_mimetype w s log = (Ok mt, log') ->
  AnyUrl.validate w cls (AnyUrl.PStr s) field config log
  = (match AnyUrl.verify_format cls s mt with
     | Ok _ =>
         Ok (if (AnyUrl.normalize_path w (AnyUrl.PStr s)).1
             then AnyUrl.new_url s None
             else AnyUrl.new_url (AnyUrl.str url) None)
     | Raise e => Raise e
     end, log').
Proof.
  intros Hurl Hdet. unfold AnyUrl.validate.
  destruct (AnyUrl.normalize_path w (AnyUrl.PStr s)) as [rel abs_path].
  cbn [fst snd] in *.
  unfold AnyUrl.io_bind, AnyUrl.lift. rewrite Hurl. cbn [AnyUrl.splittable].
  rewrite Hdet.
  destruct (AnyUrl.verify_format cls s mt); [| reflexivity].
  destruct rel; reflexivity.
Qed.

(** What a successful [validate] went through. *)
Lemma validate_success (w : AnyUrl.World) cls value field config log u log' :
  AnyUrl.validate w cls value field config log = (Ok u, log') ->
  exists s url mt,
    value = AnyUrl.PStr s
    /\ AnyUrl.super_validate w cls (AnyUrl.normalize_path w value).2
         field config = Ok url
    /\ AnyUrl.detect_mimetype w s log = (Ok mt, log')
    /\ AnyUrl.verify_format cls s mt = Ok tt
    /\ u = if (AnyUrl.normalize_path w value).1
           then AnyUrl.new_url s None
           else AnyUrl.new_url (AnyUrl.str url) None.
Proof.
  unfold AnyUrl.validate.
  destruct (AnyUrl.normalize_path w value) as [rel abs_path] eqn:Hnorm.
  cbn [fst snd]. unfold AnyUrl.io_bind at 1. unfold AnyUrl.lift at 1.
  destruct (AnyUrl.super_validate w cls abs_path field config) as [url | e];
    [| discriminate].
  unfold AnyUrl.io_bind at 1. unfold AnyUrl.lift at 1.
  destruct value as [s | | | |]; cbn [AnyUrl.splittable]; try discriminate.
  unfold AnyUrl.io_bind at 1.
  destruct (AnyUrl.detect_mimetype w s log) as [[mt | e] log1] eqn:Hdet;
    [| discriminate].
  unfold AnyUrl.io_bind, AnyUrl.lift.
  destruct (AnyUrl.verify_format cls s mt) as [[] | e] eqn:Hver;
    [| discriminate].
  intros H. exists s, url, mt.
  destruct rel; injection H as <- <-; auto.
Qed.

(** ** The claims *)

(** C2: a relative string that passes validation comes back with the
    original string as its text, not its absolute form; any other input
    that passes comes back with the text of the URL the grammar check
    produced for the unchanged input. *)
Theorem validate_string_form (w : AnyUrl.World) cls value field config
    log u log' :
  AnyUrl.validate w cls value field config log = (Ok u, log') ->
  (forall p, value = AnyUrl.PStr p ->
     (AnyUrl.normalize_path w value).1 = true -> AnyUrl.str u = p)
  /\ ((AnyUrl.normalize_path w value).1 = false ->
      exists url,
        AnyUrl.super_validate w cls value field config = Ok url
        /\ AnyUrl.str u = AnyUrl.str url).
Proof.
  intros H.
  destruct (validate_success _ _ _ _ _ _ _ _ H)
    as (s & url & mt & -> & Hurl & _ & _ & ->).
  split.
  - intros p [= <-] Hrel. rewrite Hrel. reflexivity.
  - intros Hrel. rewrite Hrel. exists url. split; [| reflexivity].
    destruct (normalize_path_cases w s) as [(_ & _ & Hn) | (_ & Hn)];
      rewrite Hn in Hrel, Hurl; [discriminate | exact Hurl].
Qed.

Lemma validate_string_form_witness :
  (AnyUrl.normalize_path Examples.posix (AnyUrl.PStr "photo.png")).1 = true
  /\ (AnyUrl.normalize_path Examples.posix (AnyUrl.PStr "photo.png")).2
     = AnyUrl.PStr "/home/user/photo.png"
  /\ AnyUrl.str (AnyUrl.new_url "photo.png" None) = "photo.png".
Proof.
  split; [reflexivity |]. split; [reflexivity |].
  refine (proj1 (validate_string_form Examples.posix Examples.ImageUrl
                   (AnyUrl.PStr "photo.png") Examples.a_field
                   Examples.a_config [] (AnyUrl.new_url "photo.png" None) [] _)
            "photo.png" eq_refl eq_refl).
  vm_compute. reflexivity.
Defined.

(** C3, as stated, fails: validating the relative path [photo.png]
    succeeds and the stored text is [photo.png] itself, which is neither
    an absolute path nor a URL with a scheme. *)
Lemma relative_path_is_stored :
  AnyUrl.validate Examples.posix Examples.ImageUrl (AnyUrl.PStr "photo.png")
    Examples.a_field Examples.a_config []
  = (Ok (AnyUrl.new_url "photo.png" None), [])
  /\ AnyUrl.isabs Examples.posix "photo.png" = false
  /\ AnyUrl.urlparse_scheme Examples.posix "photo.png" = ""
  /\ ~ (forall w cls value field config log u log',
          AnyUrl.validate w cls value field config log = (Ok u, log') ->
          AnyUrl.isabs w (AnyUrl.str u) = true
          \/ AnyUrl.urlparse_scheme w (AnyUrl.str u) <> "").
Proof.
  assert (Hrun : AnyUrl.validate Examples.posix Examples.ImageUrl
            (AnyUrl.PStr "photo.png") Examples.a_field Examples.a_config []
          = (Ok (AnyUrl.new_url "photo.png" None), [])).
  { vm_compute. reflexivity. }
  split; [exact Hrun |]. split; [reflexivity |]. split; [reflexivity |].
  intros H. destruct (H _ _ _ _ _ _ _ _ Hrun) as [Habs | Hsch].
  - discriminate Habs.
  - apply Hsch. reflexivity.
Qed.

(** C3, amended: the text stored by a successful [validate] is the input
    string itself when the input is relative (it neither starts with
    [http] nor is an absolute path), so a relative path is stored as it
    was given; otherwise the input starts with [http] or is an absolute
    path, and the stored text is that of the URL the grammar check
    produced for it. *)
Theorem stored_text_form (w : AnyUrl.World) cls value field config
    log u log' :
  AnyUrl.validate w cls value field config log = (Ok u, log') ->
  exists s,
    value = AnyUrl.PStr s
    /\ ((startswith s "http" = false /\ AnyUrl.isabs w s = false
         /\ AnyUrl.str u = s)
        \/ ((startswith s "http" = true \/ AnyUrl.isabs w s = true)
            /\ exists url,
                 AnyUrl.super_validate w cls (AnyUrl.PStr s) field config
                 = Ok url
                 /\ AnyUrl.str u = AnyUrl.str url)).
Proof.
  intros H.
  destruct (validate_success _ _ _ _ _ _ _ _ H)
    as (s & url & mt & -> & Hurl & _ & _ & ->).
  exists s. split; [reflexivity |].
  destruct (normalize_path_cases w s) as [(Hh & Ha & Hn) | (Hor & Hn)];
    rewrite Hn in *; cbn [fst snd] in *.
  - left. auto.
  - right. split; [exact Hor |]. exists url. auto.
Qed.

Lemma stored_text_form_witness :
  exists s,
    AnyUrl.PStr "/data/photo.png" = AnyUrl.PStr s
    /\ ((startswith s "http" = false /\ AnyUrl.isabs Examples.posix s = false
         /\ AnyUrl.str (AnyUrl.new_url "/data/photo.png" None) = s)
        \/ ((startswith s "http" = true \/ AnyUrl.isabs Examples.posix s = true)
            /\ exists url,
                 AnyUrl.super_validate Examples.posix Examples.ImageUrl
                   (AnyUrl.PStr s) Examples.a_field Examples.a_config = Ok url
                 /\ AnyUrl.str (AnyUrl.new_url "/data/photo.png" None)
                    = AnyUrl.str url)).
Proof.
  apply (stored_text_form Examples.posix Examples.ImageUrl
           (AnyUrl.PStr "/data/photo.png") Examples.a_field Examples.a_config
           [] (AnyUrl.new_url "/data/photo.png" None) []).
  vm_compute. reflexivity.
Defined.

(** ** Strings: what the tests on prefixes, suffixes and the query string
    compute *)

Lemma append_cons (x : ascii) (a b : string) :
  String x a +:+ b = String x (a +:+ b).
Proof. reflexivity. Qed.

Lemma append_assoc (a b c : string) : (a +:+ b) +:+ c = a +:+ (b +:+ c).
Proof.
  induction a as [| x a IH]; [reflexivity |].
  rewrite !append_cons, IH. reflexivity.
Qed.

Lemma append_nil_r (a : string) : a +:+ "" = a.
Proof.
  induction a as [| x a IH]; [reflexivity |].
  rewrite append_cons, IH. reflexivity.
Qed.

Lemma prefix_nil (s : string) : String.prefix "" s = true.
Proof. destruct s; reflexivity. Qed.

Lemma prefix_spec (a b : string) :
  String.prefix a b = true <-> exists t, b = a +:+ t.
Proof.
  revert b. induction a as [| x a IH]; intros b.
  - rewrite prefix_nil. split; [intros _; exists b; reflexivity | reflexivity].
  - destruct b as [| y b]; cbn [String.prefix].
    + split; [discriminate | intros [t Ht]; discriminate].
    + destruct (ascii_dec x y) as [-> | Hne].
      * rewrite IH. split; intros [t Ht]; exists t.
        -- rewrite append_cons, Ht. reflexivity.
        -- rewrite append_cons in Ht. injection Ht as Ht. exact Ht.
      * split; [discriminate |].
        intros [t Ht]. rewrite append_cons in Ht. injection Ht as Hxy _.
        congruence.
Qed.

Lemma rev_app_spec (s acc : string) :
  String.rev_app s acc = String.rev s +:+ acc.
Proof.
  unfold String.rev. revert acc.
  induction s as [| x s IH]; intros acc; cbn [String.rev_app]; [reflexivity |].
  rewrite (IH (String x acc)), (IH (String x "")), append_assoc. reflexivity.
Qed.

Lemma rev_append (a b : string) :
  String.rev (a +:+ b) = String.rev b +:+ String.rev a.
Proof.
  induction a as [| x a IH].
  - change ("" +:+ b) with b. change (String.rev "") with "".
    rewrite append_nil_r. reflexivity.
  - rewrite append_cons. unfold String.rev at 1 3. cbn [String.rev_app].
    rewrite !rev_app_spec, IH, append_assoc. reflexivity.
Qed.

Lemma rev_involutive (s : string) : String.rev (String.rev s) = s.
Proof.
  induction s as [| x s IH]; [reflexivity |].
  unfold String.rev at 2. cbn [String.rev_app].
  rewrite rev_app_spec, rev_append, IH. reflexivity.
Qed.

(** [startswith] is the prefix test. *)
Lemma startswith_spec (m required : string) :
  startswith m required = true <-> AnyUrl.starts_with m required.
Proof. unfold startswith, AnyUrl.starts_with. apply prefix_spec. Qed.

(** [endswith] is the suffix test. *)
Lemma endswith_spec (s ext : string) :
  endswith s ext = true <-> AnyUrl.ends_with s ext.
Proof.
  unfold endswith, AnyUrl.ends_with. rewrite prefix_spec. split.
  - intros [t Ht]. exists (String.rev t).
    rewrite <- (rev_involutive s), Ht, rev_append, rev_involutive.
    reflexivity.
  - intros [pre ->]. exists (String.rev pre). apply rev_append.
Qed.

(** [has_char] finds a character exactly when the string splits around
    it. *)
Lemma has_char_spec (c : ascii) (s : string) :
  AnyUrl.has_char c s = true <-> exists pre post, s = pre +:+ String c post.
Proof.
  induction s as [| x s IH]; cbn [AnyUrl.has_char].
  - split; [discriminate |].
    intros (pre & post & H). destruct pre; discriminate H.
  - rewrite orb_true_iff, IH. split.
    + intros [Hx | (pre & post & ->)].
      * apply Ascii.eqb_eq in Hx as ->. exists "", s. reflexivity.
      * exists (String x pre), post. reflexivity.
    + intros (pre & post & H). destruct pre as [| y pre].
      * injection H as -> ->. left. apply Ascii.eqb_refl.
      * rewrite append_cons in H. injection H as -> ->.
        right. exists pre, post. reflexivity.
Qed.

Lemma no_query_mark (stem : string) :
  (forall pre post, stem <> pre +:+ "?" +:+ post) ->
  AnyUrl.has_char "?" stem = false.
Proof.
  intros H. apply not_true_is_false. intros Hc.
  apply has_char_spec in Hc as (pre & post & ->).
  exact (H pre post eq_refl).
Qed.

Lemma split_first_whole (s : string) :
  AnyUrl.has_char "?" s = false -> split_first "?" s = s.
Proof.
  induction s as [| c s IH]; [reflexivity |].
  cbn [AnyUrl.has_char split_first]. intros H.
  apply orb_false_iff in H as [Hc Hrest].
  rewrite Hc, (IH Hrest). reflexivity.
Qed.

Lemma split_first_query (name query : string) :
  AnyUrl.has_char "?" name = false ->
  split_first "?" (name +:+ "?" +:+ query) = name.
Proof.
  induction name as [| c name IH]; [reflexivity |].
  cbn [AnyUrl.has_char]. intros H.
  apply orb_false_iff in H as [Hc Hrest].
  change (split_first "?" (String c (name +:+ "?" +:+ query)) = String c name).
  cbn [split_first]. rewrite Hc. f_equal. exact (IH Hrest).
Qed.

(** [split_first "?"] strips the query string, and nothing else does. *)
Lemma split_first_strips (s : string) :
  AnyUrl.stripped_of_query s (split_first "?" s).
Proof.
  unfold AnyUrl.stripped_of_query. split.
  - intros pre post H.
    assert (Hc : AnyUrl.has_char "?" (split_first "?" s) = false).
    { clear H. induction s as [| c s IH]; [reflexivity |].
      cbn [split_first]. destruct (Ascii.eqb c "?") eqn:Hc; [reflexivity |].
      cbn [AnyUrl.has_char]. rewrite Hc, IH. reflexivity. }
    rewrite H in Hc.
    assert (Ht : AnyUrl.has_char "?" (pre +:+ "?" +:+ post) = true).
    { apply has_char_spec. exists pre, post. reflexivity. }
    congruence.
  - induction s as [| c s IH]; [left; reflexivity |].
    cbn [split_first]. destruct (Ascii.eqb c "?") eqn:Hc.
    + apply Ascii.eqb_eq in Hc as ->. right. exists s. reflexivity.
    + destruct IH as [IH | [query IH]].
      * left. rewrite <- IH at 1. reflexivity.
      * right. exists query. rewrite append_cons, <- IH. reflexivity.
Qed.

Lemma stripped_of_query_unique (s stem : string) :
  AnyUrl.stripped_of_query s stem -> split_first "?" s = stem.
Proof.
  intros [Hno [-> | [query ->]]].
  - apply split_first_whole, no_query_mark, Hno.
  - apply split_first_query, no_query_mark, Hno.
Qed.

(** The whitelist test of the code is the suffix test of the
    specification. *)
Lemma extension_allowed_spec (s : string) (exts : list string) :
  AnyUrl.extension_allowed s exts = true <-> AnyUrl.suffix_matches s exts.
Proof.
  unfold AnyUrl.extension_allowed, AnyUrl.suffix_matches.
  rewrite existsb_exists. split.
  - intros (ext & Hin & Hend). exists ext.
    split; [apply list_elem_of_In; exact Hin |].
    apply orb_true_iff in Hend as [Hend | Hend].
    + left. apply endswith_spec. exact Hend.
    + right. exists (split_first "?" s).
      split; [apply split_first_strips | apply endswith_spec; exact Hend].
  - intros (ext & Hin & Hend). exists ext.
    split; [apply list_elem_of_In; exact Hin |].
    apply orb_true_iff. destruct Hend as [Hend | (stem & Hstem & Hend)].
    + left. apply endswith_spec. exact Hend.
    + right. rewrite (stripped_of_query_unique _ _ Hstem).
      apply endswith_spec. exact Hend.
Qed.

(** C4: once a mime type is detected the extension whitelist plays no
    part: the value is accepted exactly when the mime type starts with
    the prefix the class requires, whatever the whitelist says; when none
    is detected, the value is accepted as soon as its suffix, with or
    without the query string, is in the whitelist, without any look at
    the required prefix, and refused otherwise.  The last two parts say
    the same with the suffix and prefix tests spelled out as equations
    between strings. *)
Theorem format_check_precedence (w : AnyUrl.World) cls s field config
    log url mt log' :
  AnyUrl.super_validate w cls (AnyUrl.normalize_path w (AnyUrl.PStr s)).2
    field config = Ok url ->
  AnyUrl.detect_mimetype w s log = (Ok mt, log') ->
  let accepted :=
    if (AnyUrl.normalize_path w (AnyUrl.PStr s)).1
    then AnyUrl.new_url s None
    else AnyUrl.new_url (AnyUrl.str url) None in
  (truthy mt = true ->
     (forall exts,
        AnyUrl.verify_format (AnyUrl.with_extensions cls exts) s mt
        = AnyUrl.verify_format cls s mt)
     /\ forall required,
          AnyUrl.mime_type cls = Ok required ->
          AnyUrl.validate w cls (AnyUrl.PStr s) field config log
          = (if startswith (default "" mt) required
             then Ok accepted
             else Raise (AnyUrl.wrong_format s required), log'))
  /\ (truthy mt = false ->
      forall exts,
        AnyUrl.allowed_extensions cls = Ok exts ->
        AnyUrl.validate w cls (AnyUrl.PStr s) field config log
        = (if AnyUrl.extension_allowed s exts
           then Ok accepted
           else Raise (AnyUrl.invalid_format cls s), log'))
  /\ (truthy mt = false ->
      forall exts,
        AnyUrl.allowed_extensions cls = Ok exts ->
        (AnyUrl.suffix_matches s exts ->
         AnyUrl.validate w cls (AnyUrl.PStr s) field config log
         = (Ok accepted, log'))
        /\ (~ AnyUrl.suffix_matches s exts ->
            AnyUrl.validate w cls (AnyUrl.PStr s) field config log
            = (Raise (AnyUrl.invalid_format cls s), log')))
  /\ (forall m required,
        mt = Some m -> m <> "" ->
        AnyUrl.mime_type cls = Ok required ->
        (AnyUrl.starts_with m required ->
         AnyUrl.validate w cls (AnyUrl.PStr s) field config log
         = (Ok accepted, log'))
        /\ (~ AnyUrl.starts_with m required ->
            AnyUrl.validate w cls (AnyUrl.PStr s) field config log
            = (Raise (AnyUrl.wrong_format s required), log'))).
Proof.
  intros Hurl Hdet accepted. subst accepted.
  rewrite (validate_string_steps _ _ _ _ _ _ _ _ _ Hurl Hdet).
  unfold AnyUrl.verify_format. split; [| split; [| split]].
  - intros Hmt. rewrite Hmt. cbn.
    split; [reflexivity |]. intros required ->. cbn.
    destruct (startswith (default "" mt) required); reflexivity.
  - intros Hmt. rewrite Hmt. cbn. intros exts ->. cbn.
    destruct (AnyUrl.extension_allowed s exts); reflexivity.
  - intros Hmt. rewrite Hmt. cbn. intros exts ->. cbn. split.
    + intros Hmatch.
      apply extension_allowed_spec in Hmatch. rewrite Hmatch. reflexivity.
    + intros Hno.
      destruct (AnyUrl.extension_allowed s exts) eqn:Hext; [| reflexivity].
      exfalso. apply Hno, extension_allowed_spec, Hext.
  - intros m required -> Hne ->. cbn [truthy].
    rewrite (proj2 (String.eqb_neq _ _) Hne). cbn. split.
    + intros Hpre. apply startswith_spec in Hpre.
      unfold startswith in Hpre. rewrite Hpre. reflexivity.
    + intros Hno.
      destruct (String.prefix required m) eqn:Hpre; [| reflexivity].
      exfalso. apply Hno, startswith_spec, Hpre.
Qed.

Lemma format_check_precedence_witness :
  AnyUrl.extension_allowed "photo.png" [".mkv"; ".png"] = true
  /\ AnyUrl.validate Examples.posix Examples.VideoUrl (AnyUrl.PStr "photo.png")
       Examples.a_field Examples.a_config []
     = (Raise (AnyUrl.wrong_format "photo.png" "video"), [])
  /\ AnyUrl.validate Examples.posix Examples.VideoUrl (AnyUrl.PStr "clip.xyz")
       Examples.a_field Examples.a_config []
     = (Raise (AnyUrl.invalid_format Examples.VideoUrl "clip.xyz"),
        [AnyUrl.EvUrlopen
           {| AnyUrl.req_url := "clip.xyz"; AnyUrl.req_headers := [] |} None]).
Proof.
  split; [reflexivity |]. split.
  - refine (proj2 (proj1 (format_check_precedence Examples.posix
                            Examples.VideoUrl "photo.png" Examples.a_field
                            Examples.a_config []
                            (AnyUrl.new_url "/home/user/photo.png" None)
                            (Some "image/png") [] _ _) eq_refl)
              "video" eq_refl); vm_compute; reflexivity.
  - assert (Hexts : AnyUrl.allowed_extensions Examples.VideoUrl
                    = Ok [".mkv"; ".png"]) by reflexivity.
    assert (Hurl : AnyUrl.super_validate Examples.posix Examples.VideoUrl
                     (AnyUrl.normalize_path Examples.posix
                        (AnyUrl.PStr "clip.xyz")).2
                     Examples.a_field Examples.a_config
                   = Ok (AnyUrl.new_url "/home/user/clip.xyz" None))
      by (vm_compute; reflexivity).
    assert (Hdet : AnyUrl.detect_mimetype Examples.posix "clip.xyz" []
                   = (Ok None,
                      [AnyUrl.EvUrlopen
                         {| AnyUrl.req_url := "clip.xyz";
                            AnyUrl.req_headers := [] |} None]))
      by (vm_compute; reflexivity).
    destruct (format_check_precedence _ _ _ _ _ _ _ _ _ Hurl Hdet)
      as (_ & _ & Hsuffix & _).
    destruct (Hsuffix eq_refl _ Hexts) as [_ Hreject].
    apply Hreject. intros Hmatch.
    apply extension_allowed_spec in Hmatch. discriminate Hmatch.
Defined.

(** C7: when the extension lookup finds nothing and the probe raises, the
    exception is dropped: the mime type stays undetected, and the call is
    decided by the extension whitelist alone. *)
Theorem probe_failure_is_swallowed (w : AnyUrl.World) cls s field config
    log url e :
  AnyUrl.super_validate w cls (AnyUrl.normalize_path w (AnyUrl.PStr s)).2
    field config = Ok url ->
  truthy (AnyUrl.guess_type w (split_first "?" s)).1 = false ->
  AnyUrl.network w {| AnyUrl.req_url := s; AnyUrl.req_headers := [] |} None
  = Raise e ->
  let probe :=
    AnyUrl.EvUrlopen {| AnyUrl.req_url := s; AnyUrl.req_headers := [] |} None in
  let accepted :=
    if (AnyUrl.normalize_path w (AnyUrl.PStr s)).1
    then AnyUrl.new_url s None
    else AnyUrl.new_url (AnyUrl.str url) None in
  AnyUrl.detect_mimetype w s log
  = (Ok (AnyUrl.guess_type w (split_first "?" s)).1, (log ++ [probe])%list)
  /\ AnyUrl.validate w cls (AnyUrl.PStr s) field config log
     = (match AnyUrl.allowed_extensions cls with
        | Ok exts =>
            if AnyUrl.extension_allowed s exts
            then Ok accepted
            else Raise (AnyUrl.invalid_format cls s)
        | Raise e' => Raise e'
        end, (log ++ [probe])%list).
Proof.
  intros Hurl Hguess Hnet probe accepted. subst probe accepted.
  assert (Hdet : AnyUrl.detect_mimetype w s log
            = (Ok (AnyUrl.guess_type w (split_first "?" s)).1,
               (log ++ [AnyUrl.EvUrlopen
                          {| AnyUrl.req_url := s; AnyUrl.req_headers := [] |}
                          None])%list)).
  { unfold AnyUrl.detect_mimetype.
    destruct (AnyUrl.guess_type w (split_first "?" s)) as [mimetype encoding].
    cbn [fst] in *. rewrite Hguess. cbn.
    unfold AnyUrl.io_bind, AnyUrl.attempt, AnyUrl.urlopen.
    rewrite Hnet. reflexivity. }
  split; [exact Hdet |].
  rewrite (validate_string_steps _ _ _ _ _ _ _ _ _ Hurl Hdet).
  unfold AnyUrl.verify_format. rewrite Hguess. cbn.
  destruct (AnyUrl.allowed_extensions cls) as [exts | e']; cbn;
    [| reflexivity].
  destruct (AnyUrl.extension_allowed s exts); reflexivity.
Qed.

Lemma probe_failure_is_swallowed_witness :
  AnyUrl.validate Examples.posix Examples.VideoUrl (AnyUrl.PStr "clip.mkv")
    Examples.a_field Examples.a_config []
  = (Ok (AnyUrl.new_url "clip.mkv" None),
     [AnyUrl.EvUrlopen
        {| AnyUrl.req_url := "clip.mkv"; AnyUrl.req_headers := [] |} None]).
Proof.
  refine (proj2 (probe_failure_is_swallowed Examples.posix Examples.VideoUrl
                   "clip.mkv" Examples.a_field Examples.a_config []
                   (AnyUrl.new_url "/home/user/clip.mkv" None)
                   (URLError "unreachable") _ _ _)); vm_compute; reflexivity.
Defined.



(** C9, as stated, fails in two ways: with no allowed schemes given (the
    default that [AnyUrl] inherits) a scheme that belongs to no allowed
    set is accepted, and a scheme is compared in lower case, so [HTTP] is
    accepted although only [http] is in the set. *)
Lemma scheme_outside_the_set_accepted :
  AnyUrl.validate_parts (AnyUrl.base_class Examples.port_in_range)
    (Examples.only_scheme (Some "ftp")) true
  = Ok (Examples.only_scheme (Some "ftp"))
  /\ ("ftp" ∉ AnyUrl.schemes_given (AnyUrl.base_class Examples.port_in_range))
  /\ AnyUrl.validate_parts Examples.WebImageUrl
       (Examples.only_scheme (Some "HTTP")) true
     = Ok (Examples.only_scheme (Some "HTTP"))
  /\ ("HTTP" ∉ AnyUrl.schemes_given Examples.WebImageUrl)
  /\ ~ (forall cls parts sch,
          AnyUrl.scheme parts = Some sch ->
          (AnyUrl.check_scheme cls parts = Ok tt
           <-> sch ∈ AnyUrl.schemes_given cls)).
Proof.
  assert (Hftp : "ftp" ∉ AnyUrl.schemes_given
                           (AnyUrl.base_class Examples.port_in_range)).
  { cbn. apply not_elem_of_nil. }
  split; [vm_compute; reflexivity |]. split; [exact Hftp |].
  split; [vm_compute; reflexivity |]. split.
  - cbn. rewrite !elem_of_cons, elem_of_nil. intuition discriminate.
  - intros H. apply Hftp.
    apply (H (AnyUrl.base_class Examples.port_in_range)
             (Examples.only_scheme (Some "ftp")) "ftp" eq_refl).
    reflexivity.
Qed.

(** C9, amended: a missing scheme always passes the scheme test, and the
    outcome of [validate_parts] is then that of the port and user tests;
    a present scheme passes exactly when no allowed schemes are given or
    its lower-case form is among them, and when it does not pass,
    [validate_parts] raises the scheme error at once. *)
Theorem scheme_check (cls : AnyUrl.url_class) (parts : AnyUrl.Parts)
    (validate_port : bool) :
  (AnyUrl.scheme parts = None ->
   AnyUrl.check_scheme cls parts = Ok tt
   /\ AnyUrl.validate_parts cls parts validate_port
      = AnyUrl.check_port_and_user cls parts validate_port)
  /\ (forall sch,
        AnyUrl.scheme parts = Some sch ->
        (AnyUrl.check_scheme cls parts = Ok tt
         <-> AnyUrl.schemes_given cls = []
             \/ lower sch ∈ AnyUrl.schemes_given cls)
        /\ (AnyUrl.check_scheme cls parts <> Ok tt ->
            AnyUrl.validate_parts cls parts validate_port
            = Raise (UrlSchemePermittedError
                       (list_to_set (AnyUrl.schemes_given cls))))
        /\ (AnyUrl.check_scheme cls parts = Ok tt ->
            AnyUrl.validate_parts cls parts validate_port
            = AnyUrl.check_port_and_user cls parts validate_port)).
Proof.
  unfold AnyUrl.validate_parts, AnyUrl.check_scheme. split.
  - intros ->. split; reflexivity.
  - intros sch ->.
    repeat case_bool_decide; cbn; repeat split; intros;
      try reflexivity; try congruence; try tauto; try discriminate.
Qed.

Lemma scheme_check_witness :
  AnyUrl.validate_parts Examples.WebImageUrl
    (Examples.only_scheme (Some "ftp")) true
  = Raise (UrlSchemePermittedError (list_to_set ["http"; "https"])).
Proof.
  refine (proj1 (proj2 (proj2 (scheme_check Examples.WebImageUrl
                                 (Examples.only_scheme (Some "ftp")) true)
                          "ftp" eq_refl)) _).
  vm_compute. discriminate.
Defined.

(** C10: the test for a relative path looks at the four characters
    [http] only.  A string that starts with them, [httpfile.png] for one,
    counts as not relative: it goes to the grammar check as it is, and on
    success the value is built from the validated URL.  A value that is
    not a string is never rewritten either. *)
Theorem http_prefix_classification (w : AnyUrl.World) :
  (forall s,
     startswith s "http" = true ->
     AnyUrl.normalize_path w (AnyUrl.PStr s) = (false, AnyUrl.PStr s)
     /\ forall cls field config log u log',
          AnyUrl.validate w cls (AnyUrl.PStr s) field config log
          = (Ok u, log') ->
          exists url,
            AnyUrl.super_validate w cls (AnyUrl.PStr s) field config = Ok url
            /\ u = AnyUrl.new_url (AnyUrl.str url) None)
  /\ (forall value,
        (forall s, value <> AnyUrl.PStr s) ->
        AnyUrl.normalize_path w value = (false, value)).
Proof.
  split.
  - intros s Hhttp.
    assert (Hn : AnyUrl.normalize_path w (AnyUrl.PStr s)
                 = (false, AnyUrl.PStr s)).
    { unfold AnyUrl.normalize_path. rewrite Hhttp. reflexivity. }
    split; [exact Hn |].
    intros cls field config log u log' H.
    destruct (validate_success _ _ _ _ _ _ _ _ H)
      as (s' & url & mt & [= <-] & Hurl & _ & _ & ->).
    rewrite Hn in *. exists url. auto.
  - intros value Hns. destruct value; try reflexivity.
    exfalso. exact (Hns s eq_refl).
Qed.

Lemma http_prefix_classification_witness :
  AnyUrl.normalize_path Examples.posix (AnyUrl.PStr "httpfile.png")
  = (false, AnyUrl.PStr "httpfile.png")
  /\ AnyUrl.isabs Examples.posix "httpfile.png" = false
  /\ AnyUrl.urlparse_scheme Examples.posix "httpfile.png" = ""
  /\ AnyUrl.normalize_path Examples.posix (AnyUrl.PInt 5)
     = (false, AnyUrl.PInt 5).
Proof.
  split.
  - exact (proj1 (proj1 (http_prefix_classification Examples.posix)
                    "httpfile.png" eq_refl)).
  - split; [reflexivity |]. split; [reflexivity |].
    apply (proj2 (http_prefix_classification Examples.posix)).
    intros s. discriminate.
Defined.

(** * Further properties of [VideoTensor.validate] *)

Lemma mro_ndarray_apart (c : VideoTensor.pyclass) :
  VideoTensor.np_ndarray ∈ VideoTensor.mro c ->
  (VideoTensor.torch_Tensor ∉ VideoTensor.mro c)
  /\ (VideoTensor.TorchTensor ∉ VideoTensor.mro c)
  /\ (VideoTensor.tf_Tensor ∉ VideoTensor.mro c)
  /\ (VideoTensor.TensorFlowTensor ∉ VideoTensor.mro c).
Proof.
  by_mro c IH.
Qed.

Lemma mro_tf_apart (c : VideoTensor.pyclass) :
  VideoTensor.tf_Tensor ∈ VideoTensor.mro c ->
  (VideoTensor.torch_Tensor ∉ VideoTensor.mro c)
  /\ (VideoTensor.TorchTensor ∉ VideoTensor.mro c)
  /\ (VideoTensor.TensorFlowTensor ∉ VideoTensor.mro c).
Proof.
  by_mro c IH.
Qed.

(** On a numpy array every torch and TensorFlow test of [validate] is
    false. *)
Lemma ndarray_skips_optional_backends (value : VideoTensor.pyobj) :
  VideoTensor.isinstance value VideoTensor.np_ndarray = true ->
  VideoTensor.isinstance value VideoTensor.TorchTensor = false
  /\ VideoTensor.isinstance value VideoTensor.torch_Tensor = false
  /\ VideoTensor.isinstance value VideoTensor.TensorFlowTensor = false
  /\ VideoTensor.isinstance value VideoTensor.tf_Tensor = false.
Proof.
  unfold VideoTensor.isinstance. intros H.
  apply bool_decide_eq_true in H.
  destruct (mro_ndarray_apart _ H) as (H1 & H2 & H3 & H4).
  rewrite !bool_decide_eq_false. auto.
Qed.

(** X1: a native array that is not yet a wrapper is handed to the
    constructor of its backend's video wrapper, and the outcome of that
    constructor, a value or an exception, is the outcome of [validate]:
    [VideoTorchTensor._docarray_from_native] for a torch tensor when
    torch is installed, [VideoTensorFlowTensor._docarray_from_native]
    for a TensorFlow tensor when TensorFlow is installed, and
    [VideoNdArray.validate] for a numpy array, a generic [NdArray]
    included. *)
Theorem native_arrays_are_converted torch tf from_torch from_tf nd_validate
    (value : VideoTensor.pyobj) field config :
  (torch = true ->
   VideoTensor.isinstance value VideoTensor.torch_Tensor = true ->
   VideoTensor.isinstance value VideoTensor.TorchTensor = false ->
   VideoTensor.validate torch tf from_torch from_tf nd_validate
     value field config = from_torch value)
  /\ (tf = true ->
      VideoTensor.isinstance value VideoTensor.tf_Tensor = true ->
      VideoTensor.validate torch tf from_torch from_tf nd_validate
        value field config = from_tf value)
  /\ (VideoTensor.isinstance value VideoTensor.np_ndarray = true ->
      VideoTensor.isinstance value VideoTensor.VideoNdArray = false ->
      VideoTensor.validate torch tf from_torch from_tf nd_validate
        value field config = nd_validate value field config).
Proof.
  unfold VideoTensor.validate. split; [| split].
  - intros -> Ht Hw. rewrite Ht, Hw. reflexivity.
  - intros -> Htf.
    unfold VideoTensor.isinstance in *. apply bool_decide_eq_true in Htf.
    destruct (mro_tf_apart _ Htf) as (H1 & H2 & H3).
    rewrite (bool_decide_eq_false_2 _ H1), (bool_decide_eq_false_2 _ H2),
      (bool_decide_eq_false_2 _ H3), (bool_decide_eq_true_2 _ Htf).
    rewrite !andb_false_r. reflexivity.
  - intros Hnp Hv.
    destruct (ndarray_skips_optional_backends _ Hnp) as (H1 & H2 & H3 & H4).
    rewrite H1, H2, H3, H4, Hv, Hnp, !andb_false_r.
    destruct (nd_validate value field config); reflexivity.
Qed.

Lemma native_arrays_are_converted_witness :
  Examples.validate_with true true Examples.native_torch
  = Ok {| VideoTensor.ob_id := 104;
          VideoTensor.ob_type := VideoTensor.VideoTorchTensor;
          VideoTensor.ob_data := [1%Z; 2%Z] |}
  /\ Examples.validate_with true true Examples.generic_ndarray
     = Ok {| VideoTensor.ob_id := 106;
             VideoTensor.ob_type := VideoTensor.VideoNdArray;
             VideoTensor.ob_data := [1%Z; 2%Z] |}.
Proof.
  unfold Examples.validate_with. split.
  - rewrite (proj1 (native_arrays_are_converted true true _ _ _
                      Examples.native_torch _ _));
      reflexivity.
  - rewrite (proj2 (proj2 (native_arrays_are_converted true true _ _ _
                             Examples.generic_ndarray _ _)));
      reflexivity.
Defined.

(** X2: a numpy value is treated the same whatever optional backends
    are installed: the availability flags and the torch and TensorFlow
    constructors have no influence on the outcome. *)
Theorem numpy_values_ignore_flags torch tf torch' tf' from_torch from_tf
    from_torch' from_tf' nd_validate (value : VideoTensor.pyobj)
    field config :
  VideoTensor.isinstance value VideoTensor.np_ndarray = true ->
  VideoTensor.validate torch tf from_torch from_tf nd_validate
    value field config
  = VideoTensor.validate torch' tf' from_torch' from_tf' nd_validate
      value field config.
Proof.
  intros Hnp. unfold VideoTensor.validate.
  destruct (ndarray_skips_optional_backends _ Hnp) as (H1 & H2 & H3 & H4).
  rewrite H1, H2, H3, H4, !andb_false_r. reflexivity.
Qed.

Lemma numpy_values_ignore_flags_witness :
  Examples.validate_with true true Examples.native_ndarray
  = Examples.validate_with false false Examples.native_ndarray.
Proof.
  unfold Examples.validate_with.
  apply (numpy_values_ignore_flags true true false false).
  reflexivity.
Defined.

(** X3: with neither optional backend installed only numpy values get
    through: every other value, a torch or TensorFlow wrapper included,
    is refused with the type error. *)
Theorem without_backends_only_numpy from_torch from_tf nd_validate
    (value : VideoTensor.pyobj) field config :
  VideoTensor.isinstance value VideoTensor.np_ndarray = false ->
  VideoTensor.validate false false from_torch from_tf nd_validate
    value field config
  = Raise (VideoTensor.unsupported_input value).
Proof.
  intros Hnp. unfold VideoTensor.validate. cbn [andb].
  assert (Hv : VideoTensor.isinstance value VideoTensor.VideoNdArray = false).
  { unfold VideoTensor.isinstance in *.
    apply bool_decide_eq_false. intros H. apply mro_ndarray in H.
    apply bool_decide_eq_false in Hnp. exact (Hnp H). }
  rewrite Hv, Hnp. reflexivity.
Qed.

Lemma without_backends_only_numpy_witness :
  Examples.validate_with false false Examples.video_torch
  = Raise (TypeError
      "Expected one of [torch.Tensor, tensorflow.Tensor, numpy.ndarray] compatible type, got <class 'docarray.typing.tensor.video.video_torch_tensor.VideoTorchTensor'>").
Proof.
  unfold Examples.validate_with.
  rewrite (without_backends_only_numpy _ _ _ Examples.video_torch);
    reflexivity.
Defined.

(** * Further properties of [AnyUrl] *)

(** ** [validate] *)

(** Two ways in which [validate] fails before the mime type detection. *)
Lemma validate_fails_off_strings (w : AnyUrl.World) cls value field
    config log :
  (forall s, value <> AnyUrl.PStr s) ->
  exists e,
    AnyUrl.validate w cls value field config log = (Raise e, log)
    /\ (forall url,
          AnyUrl.super_validate w cls value field config = Ok url ->
          AnyUrl.splittable value = Raise e).
Proof.
  intros Hns. unfold AnyUrl.validate.
  destruct value as [s | n | b | d |];
    try (exfalso; exact (Hns s eq_refl));
    cbn [AnyUrl.normalize_path AnyUrl.splittable];
    unfold AnyUrl.io_bind, AnyUrl.lift;
    (destruct (AnyUrl.super_validate w cls _ field config) as [url | e];
     [ eexists; split; [reflexivity | intros; reflexivity]
     | exists e; split; [reflexivity | intros; discriminate] ]).
Qed.

Lemma validate_fails_with_grammar (w : AnyUrl.World) cls value field
    config log e :
  AnyUrl.super_validate w cls (AnyUrl.normalize_path w value).2 field config
  = Raise e ->
  AnyUrl.validate w cls value field config log = (Raise e, log).
Proof.
  intros H. unfold AnyUrl.validate.
  destruct (AnyUrl.normalize_path w value) as [rel abs_path].
  cbn [snd] in H. unfold AnyUrl.io_bind, AnyUrl.lift. rewrite H.
  reflexivity.
Qed.

(** X4: a value that is not a string never validates.  Either the
    grammar check refuses it, or, when pydantic coerces it to a string,
    the call of [split] on the original value raises; the log of events
    is left as it was. *)
Theorem non_string_never_validates (w : AnyUrl.World) cls value field
    config log :
  (forall s, value <> AnyUrl.PStr s) ->
  exists e,
    AnyUrl.validate w cls value field config log = (Raise e, log)
    /\ (forall url,
          AnyUrl.super_validate w cls value field config = Ok url ->
          AnyUrl.splittable value = Raise e).
Proof.
  exact (validate_fails_off_strings w cls value field config log).
Qed.

Lemma non_string_never_validates_witness :
  exists e,
    AnyUrl.validate Examples.posix Examples.ImageUrl (AnyUrl.PInt 5)
      Examples.a_field Examples.a_config [] = (Raise e, [])
    /\ (forall url,
          AnyUrl.super_validate Examples.posix Examples.ImageUrl
            (AnyUrl.PInt 5) Examples.a_field Examples.a_config = Ok url ->
          AnyUrl.splittable (AnyUrl.PInt 5) = Raise e).
Proof.
  apply (non_string_never_validates Examples.posix Examples.ImageUrl
           (AnyUrl.PInt 5)).
  intros s. discriminate.
Defined.

(** X5: when the grammar check raises, [validate] raises the same
    exception and nothing has touched the network: the mime type
    detection has not started. *)
Theorem grammar_failure_propagates (w : AnyUrl.World) cls value field
    config log e :
  AnyUrl.super_validate w cls (AnyUrl.normalize_path w value).2 field config
  = Raise e ->
  AnyUrl.validate w cls value field config log = (Raise e, log).
Proof.
  exact (validate_fails_with_grammar w cls value field config log e).
Qed.

Lemma grammar_failure_propagates_witness :
  AnyUrl.validate Examples.posix Examples.SecureImageUrl
    (AnyUrl.PStr "http://example.com/a.png") Examples.a_field
    Examples.a_config []
  = (Raise (UrlSchemePermittedError (list_to_set ["https"])), []).
Proof.
  apply grammar_failure_propagates. reflexivity.
Defined.

(** The log of the mime type detection: untouched when the extension
    lookup answers, one plain [urlopen] more otherwise. *)
Lemma detect_mimetype_log (w : AnyUrl.World) (s : string)
    (log : list AnyUrl.event) :
  exists mt log',
    AnyUrl.detect_mimetype w s log = (Ok mt, log')
    /\ (log' = log
        \/ log' = (log ++ [AnyUrl.EvUrlopen
                             {| AnyUrl.req_url := s; AnyUrl.req_headers := [] |}
                             None])%list)
    /\ (truthy (AnyUrl.guess_type w (split_first "?" s)).1 = true ->
        log' = log).
Proof.
  unfold AnyUrl.detect_mimetype.
  destruct (AnyUrl.guess_type w (split_first "?" s)) as [mimetype encoding].
  cbn [fst]. destruct (truthy mimetype); cbn [negb].
  - eexists _, _. split; [reflexivity |]. auto.
  - unfold AnyUrl.io_bind, AnyUrl.attempt, AnyUrl.urlopen, AnyUrl.ret.
    destruct (AnyUrl.network w _ None); eexists _, _;
      (split; [reflexivity | split; [auto | discriminate]]).
Qed.

(** X6: one call of [validate] opens at most one URL: none when the
    extension lookup gives a mime type, and otherwise only a plain
    [urlopen(value)] on the original string, without headers and without
    a timeout. *)
Theorem validate_probes_at_most_once (w : AnyUrl.World) cls s field
    config log :
  let probe :=
    AnyUrl.EvUrlopen {| AnyUrl.req_url := s; AnyUrl.req_headers := [] |} None in
  let log' := (AnyUrl.validate w cls (AnyUrl.PStr s) field config log).2 in
  (log' = log \/ log' = (log ++ [probe])%list)
  /\ (truthy (AnyUrl.guess_type w (split_first "?" s)).1 = true ->
      log' = log).
Proof.
  cbn zeta.
  destruct (AnyUrl.super_validate w cls
              (AnyUrl.normalize_path w (AnyUrl.PStr s)).2 field config)
    as [url | e] eqn:Hurl.
  - destruct (detect_mimetype_log w s log) as (mt & log' & Hdet & Hlog & Hno).
    rewrite (validate_string_steps _ _ _ _ _ _ _ _ _ Hurl Hdet).
    cbn [snd]. auto.
  - rewrite (validate_fails_with_grammar _ _ _ _ _ _ _ Hurl). cbn [snd]. auto.
Qed.

(** X7: a value that [validate] returns never carries a scheme
    attribute: it is built with [scheme=None], also for an input such as
    an [http] URL. *)
Theorem validated_scheme_is_none (w : AnyUrl.World) cls value field
    config log u log' :
  AnyUrl.validate w cls value field config log = (Ok u, log') ->
  AnyUrl.url_scheme u = None.
Proof.
  intros H.
  destruct (validate_success _ _ _ _ _ _ _ _ H)
    as (s & url & mt & _ & _ & _ & _ & ->).
  destruct (AnyUrl.normalize_path w value).1; reflexivity.
Qed.

Lemma validated_scheme_is_none_witness :
  AnyUrl.url_scheme (AnyUrl.new_url "http://example.com/a.png" None) = None
  /\ AnyUrl.super_validate Examples.posix Examples.ImageUrl
       (AnyUrl.PStr "http://example.com/a.png") Examples.a_field
       Examples.a_config
     = Ok (AnyUrl.new_url "http://example.com/a.png" (Some "http")).
Proof.
  split.
  - apply (validated_scheme_is_none Examples.posix Examples.ImageUrl
             (AnyUrl.PStr "http://example.com/a.png") Examples.a_field
             Examples.a_config [] _ []).
    vm_compute. reflexivity.
  - vm_compute. reflexivity.
Defined.

(** X8: the unspecialized class [AnyUrl] validates nothing.  Its
    [mime_type] and [allowed_extensions] raise [NotImplementedError], and
    one of the two is called for every string that passes the grammar
    check; every other input has failed before. *)
Theorem unspecialized_class_never_validates (w : AnyUrl.World) validate_port
    value field config log :
  (exists e,
     (AnyUrl.validate w (AnyUrl.base_class validate_port) value field
        config log).1 = Raise e)
  /\ (forall s url,
        value = AnyUrl.PStr s ->
        AnyUrl.super_validate w (AnyUrl.base_class validate_port)
          (AnyUrl.normalize_path w value).2 field config = Ok url ->
        (AnyUrl.validate w (AnyUrl.base_class validate_port) value field
           config log).1 = Raise NotImplementedError).
Proof.
  assert (Hstr : forall s url,
            value = AnyUrl.PStr s ->
            AnyUrl.super_validate w (AnyUrl.base_class validate_port)
              (AnyUrl.normalize_path w value).2 field config = Ok url ->
            (AnyUrl.validate w (AnyUrl.base_class validate_port) value field
               config log).1 = Raise NotImplementedError).
  { intros s url -> Hurl.
    destruct (detect_mimetype_returns w s log) as (mt & log' & Hdet).
    rewrite (validate_string_steps _ _ _ _ _ _ _ _ _ Hurl Hdet).
    unfold AnyUrl.verify_format. destruct (truthy mt); reflexivity. }
  split; [| exact Hstr].
  destruct value as [s | n | b | d |].
  - destruct (AnyUrl.super_validate w (AnyUrl.base_class validate_port)
                (AnyUrl.normalize_path w (AnyUrl.PStr s)).2 field config)
      as [url | e] eqn:Hurl.
    + exists NotImplementedError. exact (Hstr s url eq_refl eq_refl).
    + exists e. rewrite (validate_fails_with_grammar _ _ _ _ _ _ _ Hurl).
      reflexivity.
  - destruct (validate_fails_off_strings w (AnyUrl.base_class validate_port)
                (AnyUrl.PInt n) field config log) as (e & He & _);
      [intros s; discriminate |]. exists e. rewrite He. reflexivity.
  - destruct (validate_fails_off_strings w (AnyUrl.base_class validate_port)
                (AnyUrl.PBytes b) field config log) as (e & He & _);
      [intros s; discriminate |]. exists e. rewrite He. reflexivity.
  - destruct (validate_fails_off_strings w (AnyUrl.base_class validate_port)
                (AnyUrl.PArray d) field config log) as (e & He & _);
      [intros s; discriminate |]. exists e. rewrite He. reflexivity.
  - destruct (validate_fails_off_strings w (AnyUrl.base_class validate_port)
                AnyUrl.PNone field config log) as (e & He & _);
      [intros s; discriminate |]. exists e. rewrite He. reflexivity.
Qed.

Lemma unspecialized_class_never_validates_witness :
  (AnyUrl.validate Examples.posix (AnyUrl.base_class Examples.port_in_range)
     (AnyUrl.PStr "photo.png") Examples.a_field Examples.a_config []).1
  = Raise NotImplementedError.
Proof.
  refine (proj2 (unspecialized_class_never_validates Examples.posix
                   Examples.port_in_range (AnyUrl.PStr "photo.png")
                   Examples.a_field Examples.a_config [])
            "photo.png" (AnyUrl.new_url "/home/user/photo.png" None)
            eq_refl _).
  vm_compute. reflexivity.
Defined.

Lemma validate_probes_at_most_once_witness :
  (AnyUrl.validate Examples.posix Examples.ImageUrl
     (AnyUrl.PStr "http://example.com/a.png?size=2") Examples.a_field
     Examples.a_config []).2 = [].
Proof.
  apply (proj2 (validate_probes_at_most_once Examples.posix Examples.ImageUrl
                  "http://example.com/a.png?size=2" Examples.a_field
                  Examples.a_config [])).
  reflexivity.
Defined.

(** ** The query string *)

(** X9: the query string does not disturb the extension lookup: the
    mime type of [name?query] is looked up for [name], and when the
    lookup answers no URL is opened. *)
Theorem lookup_ignores_query (w : AnyUrl.World) (name query : string)
    (log : list AnyUrl.event) :
  AnyUrl.has_char "?" name = false ->
  truthy (AnyUrl.guess_type w name).1 = true ->
  AnyUrl.detect_mimetype w (name +:+ "?" +:+ query) log
  = (Ok (AnyUrl.guess_type w name).1, log).
Proof.
  intros Hq Hmt. unfold AnyUrl.detect_mimetype.
  rewrite (split_first_query _ _ Hq).
  destruct (AnyUrl.guess_type w name) as [mimetype encoding].
  cbn [fst] in *. rewrite Hmt. reflexivity.
Qed.

Lemma lookup_ignores_query_witness :
  AnyUrl.detect_mimetype Examples.posix "/data/a.png?size=2" []
  = (Ok (Some "image/png"), []).
Proof.
  apply (lookup_ignores_query Examples.posix "/data/a.png" "size=2" []);
    reflexivity.
Defined.

(** X10: the query string does not disturb the extension whitelist
    either: when no mime type is found, [name?query] is accepted as soon
    as [name] ends in an allowed extension. *)
Theorem whitelist_ignores_query (w : AnyUrl.World) cls (name query : string)
    field config log url mt log' exts ext :
  let value := name +:+ "?" +:+ query in
  AnyUrl.super_validate w cls (AnyUrl.normalize_path w (AnyUrl.PStr value)).2
    field config = Ok url ->
  AnyUrl.detect_mimetype w value log = (Ok mt, log') ->
  truthy mt = false ->
  AnyUrl.allowed_extensions cls = Ok exts ->
  AnyUrl.has_char "?" name = false ->
  ext ∈ exts ->
  endswith name ext = true ->
  AnyUrl.validate w cls (AnyUrl.PStr value) field config log
  = (Ok (if (AnyUrl.normalize_path w (AnyUrl.PStr value)).1
         then AnyUrl.new_url value None
         else AnyUrl.new_url (AnyUrl.str url) None), log').
Proof.
  intros value Hurl Hdet Hmt Hexts Hq Hin Hend.
  rewrite (validate_string_steps _ _ _ _ _ _ _ _ _ Hurl Hdet).
  assert (Hok : AnyUrl.extension_allowed value exts = true).
  { unfold AnyUrl.extension_allowed. apply existsb_exists.
    exists ext. split; [apply list_elem_of_In; exact Hin |].
    subst value. rewrite (split_first_query _ _ Hq), Hend.
    apply orb_true_r. }
  destruct (AnyUrl.normalize_path w (AnyUrl.PStr value)) as [rel abs_path].
  unfold AnyUrl.verify_format. rewrite Hmt, Hexts. cbn.
  rewrite Hok. reflexivity.
Qed.

Lemma whitelist_ignores_query_witness :
  AnyUrl.validate Examples.posix Examples.VideoUrl
    (AnyUrl.PStr "/data/clip.mkv?t=10") Examples.a_field Examples.a_config []
  = (Ok (AnyUrl.new_url "/data/clip.mkv?t=10" None),
     [AnyUrl.EvUrlopen
        {| AnyUrl.req_url := "/data/clip.mkv?t=10";
           AnyUrl.req_headers := [] |} None]).
Proof.
  refine (whitelist_ignores_query Examples.posix Examples.VideoUrl
            "/data/clip.mkv" "t=10" Examples.a_field Examples.a_config []
            (AnyUrl.new_url "/data/clip.mkv?t=10" None) None _
            [".mkv"; ".png"] ".mkv" _ _ _ _ _ _ _);
    try (vm_compute; reflexivity).
  apply list_elem_of_In. left. reflexivity.
Defined.

(** ** [validate_parts] *)

(** X11: [validate_parts] never changes the parts: whenever it returns,
    it returns the parts it was given. *)
Theorem validate_parts_returns_its_input (cls : AnyUrl.url_class)
    (parts parts' : AnyUrl.Parts) (validate_port : bool) :
  AnyUrl.validate_parts cls parts validate_port = Ok parts' ->
  parts' = parts.
Proof.
  unfold AnyUrl.validate_parts, AnyUrl.check_port_and_user.
  destruct (AnyUrl.check_scheme cls parts); cbn; [| discriminate].
  destruct (if validate_port then _ else _); cbn; [| discriminate].
  destruct (_ && _); [discriminate |]. intros [= <-]. reflexivity.
Qed.

Lemma validate_parts_returns_its_input_witness :
  AnyUrl.validate_parts Examples.WebImageUrl
    (Examples.parts_of "https://example.com/a.png") true
  = Ok (Examples.parts_of "https://example.com/a.png")
  /\ Examples.parts_of "https://example.com/a.png"
     = Examples.parts_of "https://example.com/a.png".
Proof.
  assert (H : AnyUrl.validate_parts Examples.WebImageUrl
                (Examples.parts_of "https://example.com/a.png") true
              = Ok (Examples.parts_of "https://example.com/a.png")).
  { vm_compute. reflexivity. }
  split; [exact H |].
  exact (validate_parts_returns_its_input _ _ _ _ H).
Defined.

(** X12: the three tests run in a fixed order and the first failure
    decides.  After a passed scheme test, an exception of the port test
    is the outcome, even when the user info is missing too; the port
    test is left out altogether with [validate_port=False]; and the user
    test raises [UrlUserInfoError] exactly when the class requires a user
    and the parts have none. *)
Theorem validate_parts_order (cls : AnyUrl.url_class) (parts : AnyUrl.Parts) :
  AnyUrl.check_scheme cls parts = Ok tt ->
  (forall e,
     AnyUrl._validate_port cls (AnyUrl.port parts) = Raise e ->
     AnyUrl.validate_parts cls parts true = Raise e)
  /\ (AnyUrl._validate_port cls (AnyUrl.port parts) = Ok tt ->
      AnyUrl.validate_parts cls parts true
      = AnyUrl.validate_parts cls parts false)
  /\ AnyUrl.validate_parts cls parts false
     = (if AnyUrl.user_required cls
           && bool_decide (AnyUrl.user parts = None)
        then Raise UrlUserInfoError
        else Ok parts).
Proof.
  intros Hs. unfold AnyUrl.validate_parts, AnyUrl.check_port_and_user.
  rewrite Hs. cbn. repeat split.
  - intros e ->. reflexivity.
  - intros ->. reflexivity.
Qed.

Lemma validate_parts_order_witness :
  AnyUrl.validate_parts Examples.AuthUrl
    (Examples.only_scheme (Some "https")) false
  = Raise UrlUserInfoError.
Proof.
  rewrite (proj2 (proj2 (validate_parts_order Examples.AuthUrl
                           (Examples.only_scheme (Some "https")) eq_refl))).
  reflexivity.
Defined.

(** X13: with the defaults that [AnyUrl] keeps from pydantic (no allowed
    schemes, no required user) the grammar check of the parts can fail on
    the port only: any scheme, a missing scheme and a missing user all
    pass. *)
Theorem default_class_checks_port_only
    (validate_port : option string -> result unit) (parts : AnyUrl.Parts) :
  AnyUrl.validate_parts (AnyUrl.base_class validate_port) parts false
  = Ok parts
  /\ AnyUrl.validate_parts (AnyUrl.base_class validate_port) parts true
     = match validate_port (AnyUrl.port parts) with
       | Ok _ => Ok parts
       | Raise e => Raise e
       end.
Proof.
  unfold AnyUrl.validate_parts, AnyUrl.check_scheme,
    AnyUrl.check_port_and_user.
  destruct (AnyUrl.scheme parts); cbn;
    (split; [reflexivity |]);
    destruct (validate_port (AnyUrl.port parts)); reflexivity.
Qed.

(** ** [load_bytes] *)

(** X14: a path that exists but is a directory is not reported as "not a
    URL or a valid local path": the existence test passes, and the
    [IsADirectoryError] of opening that path is what [load_bytes]
    raises. *)
Theorem load_bytes_on_directory (w : AnyUrl.World) (self : AnyUrl.url_value)
    (timeout : option Q) (log : list AnyUrl.event) :
  AnyUrl.urlparse_scheme w (AnyUrl.str self) ∉ ["http"; "https"; "data"] ->
  AnyUrl.filesystem w !! AnyUrl.str self = Some AnyUrl.Directory ->
  AnyUrl.load_bytes w self timeout log
  = (Raise (IsADirectoryError (AnyUrl.str self)),
     (log ++ [AnyUrl.EvExists (AnyUrl.str self);
              AnyUrl.EvOpen (AnyUrl.str self)])%list).
Proof.
  intros Hout Hdir. unfold AnyUrl.load_bytes, AnyUrl.network_schemes.
  rewrite (bool_decide_eq_false_2 _ Hout).
  unfold AnyUrl.io_bind, AnyUrl.path_exists, AnyUrl.read_binary.
  rewrite Hdir. rewrite bool_decide_eq_true_2 by (eexists; reflexivity).
  rewrite <- app_assoc. reflexivity.
Qed.

Lemma load_bytes_on_directory_witness :
  AnyUrl.load_bytes Examples.posix (AnyUrl.new_url "/data" None) None []
  = (Raise (IsADirectoryError "/data"),
     [AnyUrl.EvExists "/data"; AnyUrl.EvOpen "/data"]).
Proof.
  apply (load_bytes_on_directory Examples.posix
           (AnyUrl.new_url "/data" None) None []).
  - cbn. rewrite !elem_of_cons, elem_of_nil. intuition discriminate.
  - vm_compute. reflexivity.
Defined.

(** ** [build] *)

(** X15: without a scheme, [build] gives the URL without its scheme
    prefix: when pydantic assembles [scheme], [://] and the rest, the
    result for a missing scheme is the rest alone (the leading [://] is
    cut off), and the result for a scheme is that scheme, [://] and the
    result for the missing one. *)
Theorem build_without_scheme
    (pydantic_build : string -> AnyUrl.build_kwargs -> string)
    (rest : AnyUrl.build_kwargs -> string) (kwargs : AnyUrl.build_kwargs) :
  (forall sch kw, pydantic_build sch kw = sch +:+ "://" +:+ rest kw) ->
  AnyUrl.build pydantic_build None kwargs = rest kwargs
  /\ forall sch,
       AnyUrl.build pydantic_build (Some sch) kwargs
       = sch +:+ "://" +:+ AnyUrl.build pydantic_build None kwargs.
Proof.
  intros Hshape.
  assert (Hnone : AnyUrl.build pydantic_build None kwargs = rest kwargs).
  { unfold AnyUrl.build. rewrite Hshape.
    rewrite bool_decide_eq_true_2 by reflexivity.
    change ("" +:+ "://" +:+ rest kwargs)
      with (String ":" (String "/" (String "/" (rest kwargs)))).
    destruct (rest kwargs); reflexivity. }
  split; [exact Hnone |].
  intros sch. rewrite Hnone. unfold AnyUrl.build. apply Hshape.
Qed.

Lemma build_without_scheme_witness :
  AnyUrl.build Examples.assemble None Examples.local_file = "/data/clip.mp4"
  /\ AnyUrl.build Examples.assemble (Some "file") Examples.local_file
     = "file:///data/clip.mp4".
Proof.
  destruct (build_without_scheme Examples.assemble Examples.after_scheme
              Examples.local_file) as [Hnone Hsome].
  - intros sch kw. reflexivity.
  - split; [rewrite Hnone; reflexivity |].
    rewrite Hsome, Hnone. reflexivity.
Defined.

(** ** The probe *)

(** X16: when the extension lookup finds nothing and the probe answers
    with a non-empty main type, that main type is the detected mime type:
    the value is accepted exactly when it starts with the prefix the
    class requires, and the extension whitelist is not looked at. *)
Theorem probe_answer_decides (w : AnyUrl.World) cls s field config log
    url fp required :
  AnyUrl.super_validate w cls (AnyUrl.normalize_path w (AnyUrl.PStr s)).2
    field config = Ok url ->
  truthy (AnyUrl.guess_type w (split_first "?" s)).1 = false ->
  AnyUrl.network w {| AnyUrl.req_url := s; AnyUrl.req_headers := [] |} None
  = Ok fp ->
  AnyUrl.content_maintype fp <> "" ->
  AnyUrl.mime_type cls = Ok required ->
  AnyUrl.validate w cls (AnyUrl.PStr s) field config log
  = (if startswith (AnyUrl.content_maintype fp) required
     then Ok (if (AnyUrl.normalize_path w (AnyUrl.PStr s)).1
              then AnyUrl.new_url s None
              else AnyUrl.new_url (AnyUrl.str url) None)
     else Raise (AnyUrl.wrong_format s required),
     (log ++ [AnyUrl.EvUrlopen
                {| AnyUrl.req_url := s; AnyUrl.req_headers := [] |} None])%list).
Proof.
  intros Hurl Hguess Hnet Hne Hreq.
  assert (Hdet : AnyUrl.detect_mimetype w s log
            = (Ok (Some (AnyUrl.content_maintype fp)),
               (log ++ [AnyUrl.EvUrlopen
                          {| AnyUrl.req_url := s; AnyUrl.req_headers := [] |}
                          None])%list)).
  { unfold AnyUrl.detect_mimetype.
    destruct (AnyUrl.guess_type w (split_first "?" s)) as [mimetype encoding].
    cbn [fst] in *. rewrite Hguess. cbn [negb].
    unfold AnyUrl.io_bind, AnyUrl.attempt, AnyUrl.urlopen.
    rewrite Hnet. reflexivity. }
  assert (Hmt : truthy (Some (AnyUrl.content_maintype fp)) = true).
  { cbn. apply negb_true_iff. apply String.eqb_neq. exact Hne. }
  rewrite (validate_string_steps _ _ _ _ _ _ _ _ _ Hurl Hdet).
  destruct (AnyUrl.normalize_path w (AnyUrl.PStr s)) as [rel abs_path].
  unfold AnyUrl.verify_format. rewrite Hmt, Hreq. cbn. unfold startswith.
  destruct (String.prefix required (AnyUrl.content_maintype fp));
    reflexivity.
Qed.

Lemma probe_answer_decides_witness :
  AnyUrl.validate Examples.posix Examples.VideoUrl
    (AnyUrl.PStr "http://example.com/clip") Examples.a_field
    Examples.a_config []
  = (Ok (AnyUrl.new_url "http://example.com/clip" None),
     [AnyUrl.EvUrlopen
        {| AnyUrl.req_url := "http://example.com/clip";
           AnyUrl.req_headers := [] |} None]).
Proof.
  refine (probe_answer_decides Examples.posix Examples.VideoUrl
            "http://example.com/clip" Examples.a_field Examples.a_config []
            (AnyUrl.new_url "http://example.com/clip" (Some "http"))
            {| AnyUrl.content_maintype := "video";
               AnyUrl.body := [x01; x02; x03] |}
            "video" _ _ _ _ _);
    try (vm_compute; reflexivity).
  discriminate.
Defined.
